(** * pfeffel/clean.py: persistence of the cleaned trip data set

    A shallow embedding of [src/pfeffel/clean.py].  The script loads the
    cleaned trip table and the station mapping through [load_clean_data],
    then writes a series of files under an output directory.  The embedding
    keeps the order of the Python statements: every function of the module
    is a computation in a reader/state/error monad over an explicit world
    (directories, files, and the trace of what was printed and written).

    What the run cannot decide for itself is an input: the clock, the loader
    of [src.clean_data], the answer of the parquet engine, the project root
    and the content of [config.yaml].  Of the ways in which the file system
    can refuse an operation, two are kept: [os.makedirs] refuses the empty
    path, and a file cannot be written into a directory that does not
    exist. *)

From Stdlib Require Import ZArith List Ascii String Sorted Permutation Lia.
From stdpp Require Import base gmap sets list strings sorting pretty.

Set Warnings "-clear-no-such-hyp".

(** ** Strings and POSIX paths *)

Module Path.

Definition sep : ascii := "/"%char.

(** [b.startswith("/")] *)
Definition startswith_sep (s : string) : bool :=
  match s with
  | String c _ => bool_decide (c = sep)
  | EmptyString => false
  end.

(** [a.endswith("/")] *)
Fixpoint endswith_sep (s : string) : bool :=
  match s with
  | EmptyString => false
  | String c EmptyString => bool_decide (c = sep)
  | String _ s' => endswith_sep s'
  end.

(** [os.path.join(a, b)] of posixpath, for two arguments. *)
Definition join (a b : string) : string :=
  if startswith_sep b then b
  else if bool_decide (a = "") || endswith_sep a then a +:+ b
  else a +:+ "/" +:+ b.

(** The components of a path between separators; [cur] is the component
    being read. *)
Fixpoint components_go (cur : string) (s : string) : list string :=
  match s with
  | EmptyString => [cur]
  | String c s' =>
      if bool_decide (c = sep) then cur :: components_go "" s'
      else components_go (cur +:+ String c "") s'
  end.

Definition is_name (c : string) : bool :=
  negb (bool_decide (c = "")) && negb (bool_decide (c = ".")).

(** The directory entry a path string denotes: its components, without the
    empty ones and ["."], after a ["/"] marker when the path is absolute.
    The empty key is the working directory.  Neither [".."] nor symbolic
    links are resolved. *)
Definition key (p : string) : list string :=
  (if startswith_sep p then ["/"] else []) ++
  filter (λ c, is_name c = true) (components_go "" p).

(** The keys of a directory and of all the directories above it. *)
Definition ancestors (k : list string) : list (list string) :=
  map (λ n, take n k) (seq 1 (length k)).

Definition parent (k : list string) : list string := removelast k.

(** A file name proper: one component, neither empty nor ["."]. *)
Fixpoint no_sep (s : string) : bool :=
  match s with
  | EmptyString => true
  | String c s' => negb (bool_decide (c = sep)) && no_sep s'
  end.

Definition file_name (n : string) : bool := no_sep n && is_name n.

End Path.

(** ** The run timestamp *)

(** [datetime.now()], to the minute. *)
Record datetime := mkDatetime {
  dt_year : N;
  dt_month : N;
  dt_day : N;
  dt_hour : N;
  dt_minute : N
}.

(** The invariant of Python's [datetime]. *)
Definition valid_datetime (d : datetime) : Prop :=
  (1 <= dt_year d <= 9999 ∧ 1 <= dt_month d <= 12 ∧ 1 <= dt_day d <= 31 ∧
   dt_hour d < 24 ∧ dt_minute d < 60)%N.

Definition digit_char (n : N) : ascii := ascii_of_N (48 + n mod 10).

(** [%m], [%d], [%H], [%M]: two decimal digits, zero padded. *)
Definition pad2 (n : N) (rest : string) : string :=
  String (digit_char (n / 10)) (String (digit_char n) rest).

(** [%Y]: four decimal digits, zero padded. *)
Definition pad4 (n : N) (rest : string) : string :=
  String (digit_char (n / 1000)) (String (digit_char (n / 100)) (pad2 n rest)).

(** [d.strftime("%Y%m%d_%H%M")] *)
Definition strftime_Ymd_HM (d : datetime) : string :=
  pad4 (dt_year d) (pad2 (dt_month d) (pad2 (dt_day d)
    (String "_" (pad2 (dt_hour d) (pad2 (dt_minute d) ""))))).

(** ** Data *)

(** The trip table.  It is opaque to this module, which only hands it to the
    serialisers; the row index is part of it. *)
Record DataFrame := mkDataFrame {
  df_index : list Z;
  df_columns : list string;
  df_rows : list (list string)
}.

(** A station identifier as the loader yields it: an integer-valued key (an
    [int] or a NumPy integer); [int(k)] is its value. *)
Record station_id := StationId { int_of_id : Z }.

Definition py_int (k : station_id) : Z := int_of_id k.

#[global] Instance station_id_eq_dec : EqDecision station_id.
Proof. solve_decision. Defined.

(** A Python [dict], in insertion order. *)
Definition dict (K V : Type) : Type := list (K * V).

(** [d[k] = v]: an existing key keeps its place, a new one goes last. *)
Fixpoint dict_set {K V : Type} `{EqDecision K} (k : K) (v : V) (d : dict K V)
    : dict K V :=
  match d with
  | [] => [(k, v)]
  | (k', v') :: d' =>
      if decide (k' = k) then (k', v) :: d' else (k', v') :: dict_set k v d'
  end.

(** [d.get(k)] *)
Fixpoint dict_get {K V : Type} `{EqDecision K} (k : K) (d : dict K V)
    : option V :=
  match d with
  | [] => None
  | (k', v') :: d' => if decide (k' = k) then Some v' else dict_get k d'
  end.

(** [list(d.keys())] *)
Definition dict_keys {K V : Type} (d : dict K V) : list K := map fst d.

(** The station mapping: identifier to the set of names seen for it. *)
Definition StationMap : Type := dict station_id (gset string).

(** The same mapping with plain integer keys and sorted lists of names. *)
Definition SerializableStationMap : Type := dict Z (list string).

(** [sorted(list(v))] for a set of strings: ascending code-point order. *)
Definition sorted_list (v : gset string) : list string :=
  merge_sort String.le (elements v).

(** [{int(k): sorted(list(v)) for k, v in station_id_to_names.items()}] *)
Definition serializable_station_map (m : StationMap) : SerializableStationMap :=
  fold_left (λ acc kv, dict_set (py_int kv.1) (sorted_list kv.2) acc) m [].

(** JSON values, as far as this module writes them. *)
#[warnings="-register-all"]
Inductive json :=
| JString (s : string)
| JArray (items : list json)
| JObject (members : list (string * json)).

(** [json.dump] of the serialisable mapping: integer keys become their
    decimal strings, lists become arrays of strings. *)
Definition json_of_station_map (m : SerializableStationMap) : json :=
  JObject (map (λ kv, (pretty kv.1, JArray (map JString kv.2))) m).

(** What [pickle] can hold here. *)
Inductive pyobj :=
| PyDataFrame (df : DataFrame)
| PySortedMap (m : SerializableStationMap)
| PySetMap (m : StationMap).

(** The content of a file. *)
Inductive content :=
| Pickle (o : pyobj)
| Parquet (df : DataFrame)
| Json (j : json).

(** [pd.read_pickle] on the content of a file. *)
Definition read_pickle (c : content) : option pyobj :=
  match c with Pickle o => Some o | _ => None end.

(** ** Exceptions, the environment and the world *)

(** An exception: its class and its message ([str(e)]). *)
Inductive exn := Exception (cls msg : string).

Definition str_exn (e : exn) : string := let 'Exception _ msg := e in msg.

Inductive result (A : Type) :=
| Ok (a : A)
| Raise (e : exn).
Arguments Ok {A} a.
Arguments Raise {A} e.

(** [config.yaml], as far as [main] reads it. *)
Record Config := mkConfig {
  cfg_root_dir : string;   (* config["data"]["root_dir"] *)
  cfg_csvs_dir : string    (* config["data"]["relative_paths"]["csvs_dir"] *)
}.

(** What the run depends on and does not change: the clock, the loader of
    [src.clean_data], the parquet engine, the project root and the
    configuration file. *)
Record Env := mkEnv {
  env_now : datetime;
  env_load_clean_data :
    string → option Z → option (list string) → result (DataFrame * StationMap);
  env_parquet_error : DataFrame → string → option exn;
  env_project_root : string;
  env_config : result Config
}.

Inductive event :=
| EvPrint (line : string)
| EvLoad (bikefolder : string) (num_files : option Z)
    (datapaths : option (list string))
| EvMakedirs (path : string)
| EvWrite (path : string) (c : content).

(** The file system and the trace of the run, oldest event first. *)
Record World := mkWorld {
  dirs : gset (list string);
  files : gmap (list string) content;
  trace : list event
}.

Definition log (e : event) (w : World) : World :=
  mkWorld (dirs w) (files w) (trace w ++ [e]).

(** The working directory and the root always exist. *)
Definition dir_exists (w : World) (k : list string) : bool :=
  bool_decide (k = [] ∨ k = ["/"] ∨ k ∈ dirs w).

(** ** The monad of the script *)

Definition M (A : Type) : Type := Env → World → result A * World.

Definition ret {A} (a : A) : M A := λ _ w, (Ok a, w).

Definition bind {A B} (c : M A) (k : A → M B) : M B :=
  λ env w,
    match c env w with
    | (Ok a, w') => k a env w'
    | (Raise e, w') => (Raise e, w')
    end.

Definition raise {A} (e : exn) : M A := λ _ w, (Raise e, w).

(** [try: body except Exception as e: handler(e)]; every exception of the
    model is an [Exception]. *)
Definition try_except {A} (body : M A) (handler : exn → M A) : M A :=
  λ env w,
    match body env w with
    | (Ok a, w') => (Ok a, w')
    | (Raise e, w') => handler e env w'
    end.

#[global] Instance M_ret : MRet M := @ret.
#[global] Instance M_bind : MBind M := λ A B k c, bind c k.

Definition ask : M Env := λ env w, (Ok env, w).

Definition print (line : string) : M unit := λ _ w, (Ok tt, log (EvPrint line) w).


(** ** The operating system and the libraries, as the script uses them *)

(** The world after [os.makedirs(path, exist_ok=True)] went through:
    nothing changes when the directory exists; otherwise it is created with
    every directory above it. *)
Definition make_dirs (path : string) (w : World) : World :=
  if dir_exists w (Path.key path) then log (EvMakedirs path) w
  else
    mkWorld (list_to_set (Path.ancestors (Path.key path)) ∪ dirs w)
      (files w) (trace w ++ [EvMakedirs path]).

(** The world after [c] was stored at [path]: the file is created or
    replaced. *)
Definition store (path : string) (c : content) (w : World) : World :=
  mkWorld (dirs w) (<[Path.key path := c]> (files w))
    (trace w ++ [EvWrite path c]).

(** [os.makedirs(path, exist_ok=True)]: no error when the directory exists.
    The empty path names no directory.  The file system of the model keeps
    directories and regular files apart: a regular file standing at [path]
    or above it, for which [os.makedirs] raises [FileExistsError] or
    [NotADirectoryError], is not modelled. *)
Definition os_makedirs_exist_ok (path : string) : M unit := λ _ w,
  if bool_decide (path = "") then
    (Raise (Exception "FileNotFoundError"
              "[Errno 2] No such file or directory: ''"), w)
  else (Ok tt, make_dirs path w).

(** What a write raises when the directory of the file does not exist (the
    wording of the message depends on the library that opens the file). *)
Definition no_such_directory (path : string) : exn :=
  Exception "OSError" ("non-existent directory for " +:+ path).

(** Opening [path] for writing and storing [c]: the directory of the file
    has to exist. *)
Definition write_file (path : string) (c : content) : M unit := λ _ w,
  if dir_exists w (Path.parent (Path.key path)) then (Ok tt, store path c w)
  else (Raise (no_such_directory path), w).

(** [df.to_pickle(path)] *)
Definition df_to_pickle (df : DataFrame) (path : string) : M unit :=
  write_file path (Pickle (PyDataFrame df)).

(** [df.to_parquet(path, index=True)]: the engine may refuse (none
    installed, a column it cannot encode, a target it may not open), and
    then no file is written.  A write that fails half-way and leaves a
    damaged file behind is not modelled. *)
Definition df_to_parquet (df : DataFrame) (path : string) : M unit :=
  env ← ask;
  match env_parquet_error env df path with
  | Some e => raise e
  | None => write_file path (Parquet df)
  end.

(** [pd.to_pickle(obj, path)] *)
Definition pd_to_pickle (o : pyobj) (path : string) : M unit :=
  write_file path (Pickle o).

(** [with open(path, "w", encoding="utf-8") as f:
       json.dump(obj, f, ensure_ascii=False, indent=2)] *)
Definition json_dump_to (m : SerializableStationMap) (path : string) : M unit :=
  write_file path (Json (json_of_station_map m)).

(** [load_clean_data(bikefolder=..., num_files=..., datapaths=...)] of
    [src.clean_data]. *)
Definition load_clean_data (bikefolder : string) (num_files : option Z)
    (datapaths : option (list string)) : M (DataFrame * StationMap) := λ env w,
  (env_load_clean_data env bikefolder num_files datapaths,
   log (EvLoad bikefolder num_files datapaths) w).

(** ** The module *)

(** [_timestamp()] *)
Definition _timestamp : M string :=
  env ← ask; mret (strftime_Ymd_HM (env_now env)).

(** [_ensure_dir(path)] *)
Definition _ensure_dir (path : string) : M unit := os_makedirs_exist_ok path.

(** The truth value of [ts], a string or [None]. *)
Definition truthy (ts : option string) : bool :=
  match ts with
  | Some s => negb (bool_decide (s = ""))
  | None => false
  end.

(** [{ts}] inside an f-string. *)
Definition fmt (ts : option string) : string :=
  match ts with Some s => s | None => "None" end.

(** A line break inside a message. *)
Definition nl : string := String (ascii_of_nat 10) "".

(** The two messages that precede [{e}] in the handlers. *)
Definition primary_failure : string :=
  "Failed to write parquet (missing engine like 'pyarrow' or 'fastparquet'?)."
  +:+ nl +:+ "Skipping parquet. Error: ".

Definition latest_failure : string :=
  "Failed to write latest parquet (missing engine?). Skipping."
  +:+ nl +:+ "Error: ".

(** [f"<stem>_{ts}<ext>" if ts else "<stem><ext>"] *)
Definition base_name (stem ext : string) (ts : option string) : string :=
  if truthy ts then stem +:+ "_" +:+ fmt ts +:+ ext else stem +:+ ext.

(** [create_clean_data(bikefolder, output_dir, num_files, datapaths,
    write_parquet, timestamp_output)], statement by statement; it returns
    [(pickle_fpath, parquet_fpath_or_None, station_map_json_fpath)]. *)
Definition create_clean_data (bikefolder output_dir : string)
    (num_files : option Z) (datapaths : option (list string))
    (write_parquet timestamp_output : bool)
    : M (string * option string * string) :=
  print ("Loading raw trips from: " +:+ bikefolder);;
  '(df, station_id_to_names) ← load_clean_data bikefolder num_files datapaths;
  _ensure_dir output_dir;;
  ts ← (if timestamp_output then s ← _timestamp; mret (Some s)
        else mret None);
  let base_pickle_name := base_name "cleaned_data" ".pickle" ts in
  let base_parquet_name := base_name "cleaned_data" ".parquet" ts in
  let base_station_map_name := base_name "station_id_to_names" ".json" ts in
  let base_station_map_pickle_name :=
    base_name "station_id_to_names" ".pickle" ts in
  let base_station_names_pickle_name :=
    base_name "station_names" ".pickle" ts in
  let pickle_fpath := Path.join output_dir base_pickle_name in
  let parquet_fpath := Path.join output_dir base_parquet_name in
  let station_map_fpath := Path.join output_dir base_station_map_name in
  let station_map_pickle_fpath :=
    Path.join output_dir base_station_map_pickle_name in
  let station_names_pickle_fpath :=
    Path.join output_dir base_station_names_pickle_name in
  print ("Writing pickle: " +:+ pickle_fpath);;
  df_to_pickle df pickle_fpath;;
  parquet_fpath ←
    (if write_parquet then
       print ("Writing parquet: " +:+ parquet_fpath);;
       try_except
         (df_to_parquet df parquet_fpath;; mret (Some parquet_fpath))
         (λ e, print (primary_failure +:+ str_exn e);; mret None)
     else mret None);
  let serializable_station_map := serializable_station_map station_id_to_names in
  print ("Writing station ID->names map: " +:+ station_map_fpath);;
  json_dump_to serializable_station_map station_map_fpath;;
  print ("Writing station ID->names pickle: " +:+ station_map_pickle_fpath);;
  pd_to_pickle (PySortedMap serializable_station_map) station_map_pickle_fpath;;
  print ("Writing raw station names pickle (set-valued): "
         +:+ station_names_pickle_fpath);;
  pd_to_pickle (PySetMap station_id_to_names) station_names_pickle_fpath;;
  let latest_pickle := Path.join output_dir "cleaned_data_latest.pickle" in
  print ("Writing latest pickle: " +:+ latest_pickle);;
  df_to_pickle df latest_pickle;;
  (if write_parquet && bool_decide (parquet_fpath ≠ None) then
     let latest_parquet := Path.join output_dir "cleaned_data_latest.parquet" in
     print ("Writing latest parquet: " +:+ latest_parquet);;
     try_except
       (df_to_parquet df latest_parquet)
       (λ e, print (latest_failure +:+ str_exn e))
   else mret tt);;
  let latest_station_map := Path.join output_dir "station_id_to_names.json" in
  let latest_station_map_pickle :=
    Path.join output_dir "station_id_to_names_latest.pickle" in
  let latest_station_names_pickle :=
    Path.join output_dir "station_names_latest.pickle" in
  print ("Writing latest station map: " +:+ latest_station_map);;
  json_dump_to serializable_station_map latest_station_map;;
  print ("Writing latest station map pickle: " +:+ latest_station_map_pickle);;
  pd_to_pickle (PySortedMap serializable_station_map) latest_station_map_pickle;;
  print ("Writing latest raw station names pickle: "
         +:+ latest_station_names_pickle);;
  pd_to_pickle (PySetMap station_id_to_names) latest_station_names_pickle;;
  mret (pickle_fpath, parquet_fpath, station_map_fpath).

(** ** The command line *)

(** The namespace [parser.parse_args()] returns. *)
Record Args := mkArgs {
  args_csv_dir : option string;
  args_output_dir : option string;
  args_num_files : option Z;
  args_write_parquet : bool;
  args_timestamp_output : bool;
  args_only_stations_pickle : bool
}.

(** The options the parser declares, with the value given when one is
    taken. *)
Inductive cli_option :=
| OptCsvDir (value : string)        (* --csv-dir VALUE *)
| OptOutputDir (value : string)     (* --output-dir VALUE *)
| OptNumFiles (value : Z)           (* --num-files VALUE *)
| OptNoParquet                      (* --no-parquet *)
| OptNoTimestamp                    (* --no-timestamp *)
| OptOnlyStationsPickle.            (* --only-stations-pickle *)

#[global] Instance cli_option_eq_dec : EqDecision cli_option.
Proof. solve_decision. Defined.

(** The namespace when no option is given: [default=None] for the three
    valued options, [True] behind a [store_false] action and [False] behind
    a [store_true] one. *)
Definition default_args : Args :=
  mkArgs None None None true true false.

(** The action of one option on its [dest]. *)
Definition apply_option (a : Args) (o : cli_option) : Args :=
  match o with
  | OptCsvDir v =>
      mkArgs (Some v) (args_output_dir a) (args_num_files a)
        (args_write_parquet a) (args_timestamp_output a)
        (args_only_stations_pickle a)
  | OptOutputDir v =>
      mkArgs (args_csv_dir a) (Some v) (args_num_files a)
        (args_write_parquet a) (args_timestamp_output a)
        (args_only_stations_pickle a)
  | OptNumFiles n =>
      mkArgs (args_csv_dir a) (args_output_dir a) (Some n)
        (args_write_parquet a) (args_timestamp_output a)
        (args_only_stations_pickle a)
  | OptNoParquet =>
      mkArgs (args_csv_dir a) (args_output_dir a) (args_num_files a)
        false (args_timestamp_output a) (args_only_stations_pickle a)
  | OptNoTimestamp =>
      mkArgs (args_csv_dir a) (args_output_dir a) (args_num_files a)
        (args_write_parquet a) false (args_only_stations_pickle a)
  | OptOnlyStationsPickle =>
      mkArgs (args_csv_dir a) (args_output_dir a) (args_num_files a)
        (args_write_parquet a) (args_timestamp_output a) true
  end.

(** [parser.parse_args()] on a command line of recognised options, read
    left to right. *)
Definition parse_args (argv : list cli_option) : Args :=
  fold_left apply_option argv default_args.

(** [a or d] for [a] a string or [None]: [d] unless [a] is a non-empty
    string. *)
Definition py_or (a : option string) (d : string) : string :=
  match a with
  | Some s => if bool_decide (s = "") then d else s
  | None => d
  end.

(** [with open(CONFIG_FPATH, "r") as f: config = yaml.safe_load(f)] *)
Definition load_config : M Config := λ env w, (env_config env, w).

(** [main()], from the parsed namespace on. *)
Definition main_with (args : Args) : M unit :=
  config ← load_config;
  env ← ask;
  let data_root_dir := Path.join (env_project_root env) (cfg_root_dir config) in
  let default_csv_dir := Path.join data_root_dir (cfg_csvs_dir config) in
  let csv_dir := py_or (args_csv_dir args) default_csv_dir in
  let output_dir := py_or (args_output_dir args) data_root_dir in
  print ("Using CSV dir: " +:+ csv_dir);;
  print ("Using output dir: " +:+ output_dir);;
  if args_only_stations_pickle args then
    print "Building only station names pickles (no cleaned data will be written)...";;
    '(_, station_id_to_names) ← load_clean_data csv_dir (args_num_files args) None;
    ts ← (if args_timestamp_output args then s ← _timestamp; mret (Some s)
          else mret None);
    let base_station_names_pickle_name :=
      base_name "station_names" ".pickle" ts in
    let station_names_pickle_fpath :=
      Path.join output_dir base_station_names_pickle_name in
    let latest_station_names_pickle :=
      Path.join output_dir "station_names_latest.pickle" in
    print ("Writing raw station names pickle (set-valued): "
           +:+ station_names_pickle_fpath);;
    pd_to_pickle (PySetMap station_id_to_names) station_names_pickle_fpath;;
    print ("Writing latest raw station names pickle: "
           +:+ latest_station_names_pickle);;
    pd_to_pickle (PySetMap station_id_to_names) latest_station_names_pickle;;
    mret tt
  else
    create_clean_data csv_dir output_dir (args_num_files args) None
      (args_write_parquet args) (args_timestamp_output args);;
    mret tt.

(** [main()] *)
Definition main (argv : list cli_option) : M unit := main_with (parse_args argv).

(** ** A sample run, used to try the definitions *)

Module Sample.

Definition df : DataFrame :=
  mkDataFrame [0; 1]%Z ["start_station"; "end_station"]
    [["3"; "14"]; ["14"; "3"]].

Definition stations : StationMap :=
  [(StationId 14, {["Belgrove Street"]});
   (StationId 3, {["Kings X"; "King's Cross"]})].

Definition env (parquet_error : DataFrame → string → option exn) : Env :=
  mkEnv (mkDatetime 2024 3 7 9 5)
    (λ _ _ _, Ok (df, stations))
    parquet_error
    "/repo"
    (Ok (mkConfig "data" "csvs")).

Definition no_engine : DataFrame → string → option exn :=
  λ _ _, Some (Exception "ImportError" "Unable to find a usable engine").

Definition engine_ok : DataFrame → string → option exn := λ _ _, None.

Definition w0 : World := mkWorld ∅ ∅ [].

End Sample.

(** ** The artifacts of a run *)

Inductive artifact :=
| CleanedPickle        (* the trip table, pickled *)
| CleanedParquet       (* the trip table, as parquet *)
| StationMapJson       (* the sorted-list mapping, as JSON *)
| StationMapPickle     (* the sorted-list mapping, pickled *)
| StationNamesPickle.  (* the set-valued mapping, pickled *)

#[global] Instance artifact_eq_dec : EqDecision artifact.
Proof. solve_decision. Defined.

Definition artifact_stem (a : artifact) : string :=
  match a with
  | CleanedPickle | CleanedParquet => "cleaned_data"
  | StationMapJson | StationMapPickle => "station_id_to_names"
  | StationNamesPickle => "station_names"
  end.

Definition artifact_ext (a : artifact) : string :=
  match a with
  | CleanedParquet => ".parquet"
  | StationMapJson => ".json"
  | CleanedPickle | StationMapPickle | StationNamesPickle => ".pickle"
  end.

(** The name of the first copy of an artifact. *)
Definition primary_name (ts : option string) (a : artifact) : string :=
  base_name (artifact_stem a) (artifact_ext a) ts.

(** The name of the second, stable copy of an artifact, as the source
    spells it. *)
Definition latest_name (a : artifact) : string :=
  match a with
  | CleanedPickle => "cleaned_data_latest.pickle"
  | CleanedParquet => "cleaned_data_latest.parquet"
  | StationMapJson => "station_id_to_names.json"
  | StationMapPickle => "station_id_to_names_latest.pickle"
  | StationNamesPickle => "station_names_latest.pickle"
  end.

(** What the source announces before writing a copy. *)
Definition primary_label (a : artifact) : string :=
  match a with
  | CleanedPickle => "Writing pickle: "
  | CleanedParquet => "Writing parquet: "
  | StationMapJson => "Writing station ID->names map: "
  | StationMapPickle => "Writing station ID->names pickle: "
  | StationNamesPickle => "Writing raw station names pickle (set-valued): "
  end.

Definition latest_label (a : artifact) : string :=
  match a with
  | CleanedPickle => "Writing latest pickle: "
  | CleanedParquet => "Writing latest parquet: "
  | StationMapJson => "Writing latest station map: "
  | StationMapPickle => "Writing latest station map pickle: "
  | StationNamesPickle => "Writing latest raw station names pickle: "
  end.

(** What every copy of an artifact holds. *)
Definition artifact_content (df : DataFrame) (m : StationMap) (a : artifact)
    : content :=
  match a with
  | CleanedPickle => Pickle (PyDataFrame df)
  | CleanedParquet => Parquet df
  | StationMapJson => Json (json_of_station_map (serializable_station_map m))
  | StationMapPickle => Pickle (PySortedMap (serializable_station_map m))
  | StationNamesPickle => Pickle (PySetMap m)
  end.

(** ** Traces *)

(** The world after an event took place. *)
Definition apply_event (w : World) (e : event) : World :=
  match e with
  | EvWrite path c => store path c w
  | EvMakedirs path => make_dirs path w
  | _ => log e w
  end.

Definition replay (evs : list event) (w : World) : World :=
  fold_left apply_event evs w.

(** The files written by a trace, in order. *)
Definition writes (evs : list event) : list (string * content) :=
  omap (λ e, match e with EvWrite p c => Some (p, c) | _ => None end) evs.

(** An announcement and the write it announces. *)
Definition write_step (label path : string) (c : content) : list event :=
  [EvPrint (label +:+ path); EvWrite path c].

(** An announced parquet write, which the engine lets through ([None]) or
    not. *)
Definition parquet_step (label failure path : string) (df : DataFrame)
    (err : option exn) : list event :=
  match err with
  | None => write_step label path (Parquet df)
  | Some e => [EvPrint (label +:+ path); EvPrint (failure +:+ str_exn e)]
  end.

(** The timestamp of a run. *)
Definition run_ts (env : Env) (timestamp_output : bool) : option string :=
  if timestamp_output then Some (strftime_Ymd_HM (env_now env)) else None.

Section run_events.
Context (env : Env) (bikefolder output_dir : string)
  (num_files : option Z) (datapaths : option (list string))
  (write_parquet timestamp_output : bool)
  (df : DataFrame) (m : StationMap).

Let ts := run_ts env timestamp_output.

Definition primary_path (a : artifact) : string :=
  Path.join output_dir (primary_name ts a).

Definition latest_path (a : artifact) : string :=
  Path.join output_dir (latest_name a).

(** How the engine answers the first parquet write. *)
Definition primary_parquet_error : option exn :=
  env_parquet_error env df (primary_path CleanedParquet).

Definition latest_parquet_error : option exn :=
  env_parquet_error env df (latest_path CleanedParquet).

Definition primary_step (a : artifact) : list event :=
  write_step (primary_label a) (primary_path a) (artifact_content df m a).

Definition latest_step (a : artifact) : list event :=
  write_step (latest_label a) (latest_path a) (artifact_content df m a).

(** The events of the first part of [create_clean_data], up to the last
    first copy. *)
Definition primary_events : list event :=
  primary_step CleanedPickle ++
  (if write_parquet then
     parquet_step (primary_label CleanedParquet) primary_failure
       (primary_path CleanedParquet) df primary_parquet_error
   else []) ++
  primary_step StationMapJson ++
  primary_step StationMapPickle ++
  primary_step StationNamesPickle.

(** The events of the second part, the stable copies. *)
Definition latest_events : list event :=
  latest_step CleanedPickle ++
  (if write_parquet && bool_decide (primary_parquet_error = None) then
     parquet_step (latest_label CleanedParquet) latest_failure
       (latest_path CleanedParquet) df latest_parquet_error
   else []) ++
  latest_step StationMapJson ++
  latest_step StationMapPickle ++
  latest_step StationNamesPickle.

(** The events of a run of [create_clean_data] whose loader returned
    [(df, m)]. *)
Definition run_events : list event :=
  [EvPrint ("Loading raw trips from: " +:+ bikefolder);
   EvLoad bikefolder num_files datapaths;
   EvMakedirs output_dir] ++
  primary_events ++ latest_events.

(** The write of the first copy of an artifact, and of its stable copy. *)
Definition primary_write (a : artifact) : string * content :=
  (primary_path a, artifact_content df m a).

Definition latest_write (a : artifact) : string * content :=
  (latest_path a, artifact_content df m a).

(** The parquet path such a run returns. *)
Definition returned_parquet : option string :=
  if write_parquet && bool_decide (primary_parquet_error = None)
  then Some (primary_path CleanedParquet) else None.

End run_events.

(** What [ts] can be in a run: absent, or the timestamp of the clock. *)
Definition clock_ts (ts : option string) : Prop :=
  ts = None ∨ ∃ d, ts = Some (strftime_Ymd_HM d).

(** The name of a copy of an artifact: the first one, or the stable one. *)
Definition copy_name (ts : option string) (latest : bool) (a : artifact)
    : string :=
  if latest then latest_name a else primary_name ts a.

(** The artifacts whose first copy a run writes, in order: the parquet
    one only when it is asked for and the engine lets it through. *)
Definition written_primary (write_parquet : bool) (err : option exn)
    : list artifact :=
  [CleanedPickle] ++
  (if write_parquet && bool_decide (err = None) then [CleanedParquet] else []) ++
  [StationMapJson; StationMapPickle; StationNamesPickle].

(** The artifacts whose stable copy a run writes, in order. *)
Definition written_latest (write_parquet : bool) (err err' : option exn)
    : list artifact :=
  [CleanedPickle] ++
  (if write_parquet && bool_decide (err = None) && bool_decide (err' = None)
   then [CleanedParquet] else []) ++
  [StationMapJson; StationMapPickle; StationNamesPickle].

(** The files after the writes [ws], oldest first. *)
Definition files_after (ws : list (string * content))
    (fs : gmap (list string) content) : gmap (list string) content :=
  fold_left (λ fs pc, <[Path.key pc.1 := pc.2]> fs) ws fs.

(** [pd.read_pickle(path)] in a world. *)
Definition load_pickle (w : World) (path : string) : option pyobj :=
  files w !! Path.key path ≫= read_pickle.

(** The events a run added to the trace of the world it started in. *)
Definition new_events (w w' : World) : list event :=
  drop (length (trace w)) (trace w').

(** The directories [main] works with, as it computes them from the
    configuration and the namespace. *)
Definition data_root_dir (env : Env) (cfg : Config) : string :=
  Path.join (env_project_root env) (cfg_root_dir cfg).

Definition default_csv_dir (env : Env) (cfg : Config) : string :=
  Path.join (data_root_dir env cfg) (cfg_csvs_dir cfg).

Definition resolved_csv_dir (env : Env) (cfg : Config) (args : Args) : string :=
  py_or (args_csv_dir args) (default_csv_dir env cfg).

Definition resolved_output_dir (env : Env) (cfg : Config) (args : Args)
    : string :=
  py_or (args_output_dir args) (data_root_dir env cfg).

(** The events of [main] in the mode of [--only-stations-pickle], for a
    loader that returned the mapping [m], up to the first write. *)
Definition stations_only_prelude (env : Env) (cfg : Config) (args : Args)
    : list event :=
  let csv_dir := resolved_csv_dir env cfg args in
  let output_dir := resolved_output_dir env cfg args in
  [EvPrint ("Using CSV dir: " +:+ csv_dir);
   EvPrint ("Using output dir: " +:+ output_dir);
   EvPrint "Building only station names pickles (no cleaned data will be written)...";
   EvLoad csv_dir (args_num_files args) None;
   EvPrint ("Writing raw station names pickle (set-valued): " +:+
            Path.join output_dir
              (primary_name (run_ts env (args_timestamp_output args))
                 StationNamesPickle))].

(** Reading a timestamp back: decimal digits and the number they write. *)
Definition is_digit (c : ascii) : bool :=
  (48 <=? N_of_ascii c)%N && (N_of_ascii c <=? 57)%N.

Fixpoint all_digits (s : string) : bool :=
  match s with
  | EmptyString => true
  | String c s' => is_digit c && all_digits s'
  end.

Fixpoint decimal_go (acc : N) (s : string) : N :=
  match s with
  | EmptyString => acc
  | String c s' => decimal_go (10 * acc + (N_of_ascii c - 48)) s'
  end.

Definition decimal (s : string) : N := decimal_go 0 s.

(** A string of the form [YYYYMMDD_HHMM] that writes the date and time
    [d]. *)
Definition is_Ymd_HM_of (d : datetime) (ts : string) : Prop :=
  String.length ts = 13
  ∧ substring 8 1 ts = "_"
  ∧ all_digits (substring 0 8 ts) = true
  ∧ all_digits (substring 9 4 ts) = true
  ∧ decimal (substring 0 4 ts) = dt_year d
  ∧ decimal (substring 4 2 ts) = dt_month d
  ∧ decimal (substring 6 2 ts) = dt_day d
  ∧ decimal (substring 9 2 ts) = dt_hour d
  ∧ decimal (substring 11 2 ts) = dt_minute d.

(** The same environment at another time. *)
Definition with_now (now : datetime) (env : Env) : Env :=
  mkEnv now (env_load_clean_data env) (env_parquet_error env)
    (env_project_root env) (env_config env).

(** A namespace in which a directory given as the empty string counts as
    not given. *)
Definition drop_empty (a : option string) : option string :=
  match a with
  | Some s => if bool_decide (s = "") then None else Some s
  | None => None
  end.

Definition drop_empty_dirs (a : Args) : Args :=
  mkArgs (drop_empty (args_csv_dir a)) (drop_empty (args_output_dir a))
    (args_num_files a) (args_write_parquet a) (args_timestamp_output a)
    (args_only_stations_pickle a).

(** The same environment with another parquet engine. *)
Definition with_parquet_error
    (engine : DataFrame → string → option exn) (env : Env) : Env :=
  mkEnv (env_now env) (env_load_clean_data env) engine
    (env_project_root env) (env_config env).

(** Every write of a trace comes right after the line that announces its
    path. *)
Definition announced (evs : list event) : Prop :=
  ∀ pre p c post,
    evs = pre ++ EvWrite p c :: post →
    ∃ pre' label, pre = pre' ++ [EvPrint (label +:+ p)].

(** The values given to [--csv-dir], [--output-dir] and [--num-files] on a
    command line, in order. *)
Definition csv_dir_values (argv : list cli_option) : list string :=
  omap (λ o, match o with OptCsvDir v => Some v | _ => None end) argv.

Definition output_dir_values (argv : list cli_option) : list string :=
  omap (λ o, match o with OptOutputDir v => Some v | _ => None end) argv.

Definition num_files_values (argv : list cli_option) : list Z :=
  omap (λ o, match o with OptNumFiles v => Some v | _ => None end) argv.

(** * Properties *)

Example strftime_example :
  strftime_Ymd_HM (mkDatetime 2024 3 7 9 5) = "20240307_0905".
Proof. reflexivity. Qed.


(** ** Paths *)

Section path_facts.
Import Path.

Lemma string_app_nil_l (s : string) : "" +:+ s = s.
Proof. reflexivity. Qed.

Lemma string_app_cons c (s t : string) :
  String c s +:+ t = String c (s +:+ t).
Proof. reflexivity. Qed.

Lemma string_app_nil_r (s : string) : s +:+ "" = s.
Proof. induction s as [|c s IH]; [done|]. by rewrite string_app_cons, IH. Qed.

Lemma string_app_assoc (a b c : string) : a +:+ (b +:+ c) = (a +:+ b) +:+ c.
Proof.
  induction a as [|x a IH]; [done|]. by rewrite !string_app_cons, IH.
Qed.

Lemma components_go_no_sep n cur :
  no_sep n = true → components_go cur n = [cur +:+ n].
Proof.
  revert cur. induction n as [|c n IH]; intros cur Hn; simpl in *.
  - by rewrite string_app_nil_r.
  - apply andb_true_iff in Hn as [Hc Hn].
    apply negb_true_iff, bool_decide_eq_false in Hc.
    rewrite bool_decide_false by done. rewrite IH by done.
    by rewrite <- string_app_assoc.
Qed.

Lemma components_go_sep a b cur :
  components_go cur (a +:+ String sep b)
  = components_go cur a ++ components_go "" b.
Proof.
  revert cur. induction a as [|c a IH]; intros cur.
  - by rewrite string_app_nil_l.
  - rewrite string_app_cons. simpl.
    case_bool_decide; [by rewrite IH|apply IH].
Qed.

Lemma endswith_sep_inv d :
  endswith_sep d = true → ∃ d', d = d' +:+ String sep "".
Proof.
  induction d as [|c d IH]; simpl; [done|].
  destruct d as [|c' d].
  - intros ->%bool_decide_eq_true. by exists "".
  - intros [d' Hd]%IH. exists (String c d').
    by rewrite string_app_cons, Hd.
Qed.

Lemma startswith_sep_app a b :
  a ≠ "" → startswith_sep (a +:+ b) = startswith_sep a.
Proof. by destruct a. Qed.

Lemma file_name_inv n :
  file_name n = true →
  no_sep n = true ∧ is_name n = true ∧ startswith_sep n = false.
Proof.
  unfold file_name. intros [Hsep Hn]%andb_true_iff.
  split_and!; [done..|].
  destruct n as [|c n]; [done|]. simpl in *.
  by apply andb_true_iff in Hsep as [->%negb_true_iff _].
Qed.

Lemma filter_file_name n :
  is_name n = true → filter (λ c, is_name c = true) [n] = [n].
Proof. intros. by rewrite filter_cons_True. Qed.

Lemma filter_empty_name :
  filter (λ c, is_name c = true) [""] = [].
Proof. done. Qed.

Lemma key_file_name n : file_name n = true → key n = [n].
Proof.
  intros (Hsep & Hname & Hstart)%file_name_inv.
  unfold key. rewrite Hstart, components_go_no_sep by done.
  rewrite string_app_nil_l. by rewrite filter_file_name.
Qed.

Lemma key_app_sep d n :
  d ≠ "" → file_name n = true → key (d +:+ String sep n) = key d ++ [n].
Proof.
  intros Hd (Hsep & Hname & Hstart)%file_name_inv.
  unfold key. rewrite startswith_sep_app by done.
  rewrite components_go_sep, filter_app, <- app_assoc.
  rewrite (components_go_no_sep n), string_app_nil_l by done.
  by rewrite filter_file_name.
Qed.

(** A file name joined to a directory is an entry of that directory. *)
Lemma key_join d n : file_name n = true → key (join d n) = key d ++ [n].
Proof.
  intros Hn. pose proof (file_name_inv _ Hn) as (Hsep & Hname & Hstart).
  unfold join. rewrite Hstart.
  destruct (decide (d = "")) as [->|Hd].
  { rewrite string_app_nil_l. simpl. by apply key_file_name. }
  rewrite bool_decide_false by done. simpl.
  destruct (endswith_sep d) eqn:Hend; [|by apply key_app_sep].
  apply endswith_sep_inv in Hend as [d' ->].
  rewrite <- string_app_assoc, string_app_cons, string_app_nil_l.
  destruct (decide (d' = "")) as [->|Hd'].
  - rewrite !string_app_nil_l.
    change (key (String sep "")) with ["/"].
    change (String sep n) with ("" +:+ String sep n).
    unfold key. rewrite components_go_sep, filter_app.
    rewrite (components_go_no_sep n), string_app_nil_l by done.
    by rewrite filter_file_name.
  - rewrite key_app_sep by done. f_equal.
    unfold key. rewrite startswith_sep_app by done.
    rewrite components_go_sep, filter_app.
    change (components_go "" "") with [""].
    by rewrite filter_empty_name, app_nil_r.
Qed.

Lemma parent_key_join d n :
  file_name n = true → parent (key (join d n)) = key d.
Proof. intros. rewrite key_join by done. apply removelast_last. Qed.

Lemma key_join_inj d n1 n2 :
  file_name n1 = true → file_name n2 = true →
  key (join d n1) = key (join d n2) → n1 = n2.
Proof.
  intros Hn1 Hn2. rewrite !key_join by done.
  intros Heq%app_inv_head. congruence.
Qed.

Lemma ancestors_self k : k ≠ [] → k ∈ ancestors k.
Proof.
  intros Hk. unfold ancestors. apply list_elem_of_fmap.
  exists (length k). split; [by rewrite firstn_all|].
  apply elem_of_seq. destruct k; simpl in *; [done|lia].
Qed.

End path_facts.

(** ** File names *)

Section name_facts.
Import Path.

Lemma digit_char_code n : N_of_ascii (digit_char n) = (48 + n mod 10)%N.
Proof.
  unfold digit_char. apply N_ascii_embedding.
  assert (n mod 10 < 10)%N as Hlt by (by apply N.mod_upper_bound).
  revert Hlt. generalize (n mod 10)%N. lia.
Qed.

Lemma digit_char_neq n c :
  (N_of_ascii c < 48 ∨ 57 < N_of_ascii c)%N → digit_char n ≠ c.
Proof.
  intros Hc <-. rewrite digit_char_code in Hc.
  assert (n mod 10 < 10)%N as Hlt by (by apply N.mod_upper_bound).
  revert Hc Hlt. generalize (n mod 10)%N. lia.
Qed.

Lemma no_sep_cons c s : c ≠ sep → no_sep (String c s) = no_sep s.
Proof. intros. simpl. by rewrite bool_decide_false. Qed.

Lemma no_sep_digit n s : no_sep (String (digit_char n) s) = no_sep s.
Proof.
  apply no_sep_cons, digit_char_neq. vm_compute. left. reflexivity.
Qed.

Lemma no_sep_app a b : no_sep (a +:+ b) = no_sep a && no_sep b.
Proof.
  induction a as [|c a IH]; [done|].
  rewrite string_app_cons. simpl. by rewrite IH, andb_assoc.
Qed.

Lemma no_sep_strftime d : no_sep (strftime_Ymd_HM d) = true.
Proof.
  unfold strftime_Ymd_HM, pad4, pad2.
  rewrite !no_sep_digit, no_sep_cons by done. by rewrite !no_sep_digit.
Qed.

Lemma run_ts_clock env tso : clock_ts (run_ts env tso).
Proof. destruct tso; [right; by eexists|by left]. Qed.

Lemma base_name_None stem ext : base_name stem ext None = stem +:+ ext.
Proof. reflexivity. Qed.

Lemma base_name_strftime stem ext d :
  base_name stem ext (Some (strftime_Ymd_HM d))
  = stem +:+ "_" +:+ strftime_Ymd_HM d +:+ ext.
Proof. reflexivity. Qed.

Lemma is_name_letter c s : c ≠ "."%char → is_name (String c s) = true.
Proof.
  intros Hc. unfold is_name.
  rewrite !bool_decide_false; [done|congruence|done].
Qed.

Lemma file_name_primary ts a : clock_ts ts → file_name (primary_name ts a) = true.
Proof.
  intros [->|[d ->]]; [by destruct a|].
  unfold primary_name. rewrite base_name_strftime.
  unfold file_name. apply andb_true_iff. split.
  - rewrite !no_sep_app, no_sep_strftime. by destruct a.
  - destruct a; by apply is_name_letter.
Qed.

Lemma file_name_latest a : file_name (latest_name a) = true.
Proof. by destruct a. Qed.

End name_facts.

(** ** Running the script, one statement at a time *)

Section steps.
Context {B : Type} (k : unit → M B) (env : Env) (w : World).

Lemma step_print line :
  (print line ≫= k) env w = k tt env (log (EvPrint line) w).
Proof. reflexivity. Qed.

Lemma step_ensure_dir path :
  path ≠ "" → (_ensure_dir path ≫= k) env w = k tt env (make_dirs path w).
Proof.
  intros Hp. unfold mbind, M_bind, bind, _ensure_dir, os_makedirs_exist_ok.
  by rewrite bool_decide_false.
Qed.

Lemma step_write path c :
  dir_exists w (Path.parent (Path.key path)) = true →
  (write_file path c ≫= k) env w = k tt env (store path c w).
Proof.
  intros Hd. unfold mbind, M_bind, bind, write_file. by rewrite Hd.
Qed.

Lemma step_df_to_pickle df path :
  dir_exists w (Path.parent (Path.key path)) = true →
  (df_to_pickle df path ≫= k) env w
  = k tt env (store path (Pickle (PyDataFrame df)) w).
Proof. apply step_write. Qed.

Lemma step_pd_to_pickle o path :
  dir_exists w (Path.parent (Path.key path)) = true →
  (pd_to_pickle o path ≫= k) env w = k tt env (store path (Pickle o) w).
Proof. apply step_write. Qed.

Lemma step_json_dump_to m path :
  dir_exists w (Path.parent (Path.key path)) = true →
  (json_dump_to m path ≫= k) env w
  = k tt env (store path (Json (json_of_station_map m)) w).
Proof. apply step_write. Qed.

End steps.

Section steps_valued.
Context {A B : Type} (env : Env) (w : World).

Lemma step_load (k : DataFrame * StationMap → M B) bikefolder nf dp r :
  env_load_clean_data env bikefolder nf dp = Ok r →
  (load_clean_data bikefolder nf dp ≫= k) env w
  = k r env (log (EvLoad bikefolder nf dp) w).
Proof.
  intros Hr. unfold mbind, M_bind, bind, load_clean_data. by rewrite Hr.
Qed.

Lemma step_load_raise (k : DataFrame * StationMap → M B) bikefolder nf dp e :
  env_load_clean_data env bikefolder nf dp = Raise e →
  (load_clean_data bikefolder nf dp ≫= k) env w
  = (Raise e, log (EvLoad bikefolder nf dp) w).
Proof.
  intros Hr. unfold mbind, M_bind, bind, load_clean_data. by rewrite Hr.
Qed.

Lemma step_ret (k : A → M B) (a : A) : (mret a ≫= k) env w = k a env w.
Proof. reflexivity. Qed.

Lemma step_ts (k : option string → M B) (tso : bool) :
  ((if tso then s ← _timestamp; mret (Some s) else mret None) ≫= k) env w
  = k (run_ts env tso) env w.
Proof. by destruct tso. Qed.

(** The first parquet write, with its handler. *)
Lemma step_parquet (k : option string → M B) label df path :
  dir_exists w (Path.parent (Path.key path)) = true →
  ((print (label +:+ path);;
    try_except (df_to_parquet df path;; mret (Some path))
      (λ e, print (primary_failure +:+ str_exn e);; mret None)) ≫= k) env w
  = k (if env_parquet_error env df path is None then Some path else None)
      env
      (replay (parquet_step label primary_failure path df
                 (env_parquet_error env df path)) w).
Proof.
  intros Hd.
  cbv [mbind M_bind bind try_except df_to_parquet ask raise write_file
         print mret M_ret ret].
  destruct (env_parquet_error env df path); [done|].
  change (dir_exists (log (EvPrint (label +:+ path)) w)) with (dir_exists w).
  by rewrite Hd.
Qed.

(** The second parquet write, with its handler. *)
Lemma step_latest_parquet (k : unit → M B) label df path :
  dir_exists w (Path.parent (Path.key path)) = true →
  ((print (label +:+ path);;
    try_except (df_to_parquet df path)
      (λ e, print (latest_failure +:+ str_exn e))) ≫= k) env w
  = k tt env
      (replay (parquet_step label latest_failure path df
                 (env_parquet_error env df path)) w).
Proof.
  intros Hd.
  cbv [mbind M_bind bind try_except df_to_parquet ask raise write_file
         print mret M_ret ret].
  destruct (env_parquet_error env df path); [done|].
  change (dir_exists (log (EvPrint (label +:+ path)) w)) with (dir_exists w).
  by rewrite Hd.
Qed.

End steps_valued.

Section world_facts.

Lemma dir_exists_make_dirs path w :
  dir_exists (make_dirs path w) (Path.key path) = true.
Proof.
  unfold make_dirs. destruct (dir_exists w (Path.key path)) eqn:Hd; [done|].
  unfold dir_exists in *. apply bool_decide_eq_true.
  apply bool_decide_eq_false in Hd. right; right. simpl.
  apply elem_of_union_l, elem_of_list_to_set, ancestors_self.
  naive_solver.
Qed.

Lemma trace_replay evs w : trace (replay evs w) = trace w ++ evs.
Proof.
  revert w. induction evs as [|e evs IH]; intros w; simpl.
  - by rewrite app_nil_r.
  - unfold replay in IH. rewrite IH.
    rewrite (cons_middle e), app_assoc. f_equal.
    destruct e; simpl; try done.
    unfold make_dirs. by case_match.
Qed.

Lemma replay_app evs1 evs2 w :
  replay (evs1 ++ evs2) w = replay evs2 (replay evs1 w).
Proof. apply fold_left_app. Qed.

Lemma files_make_dirs path w : files (make_dirs path w) = files w.
Proof. unfold make_dirs. by case_match. Qed.

End world_facts.

(** ** The run of [create_clean_data] *)

Section create_clean_data_run.
Context (env : Env) (w : World) (bikefolder output_dir : string)
  (num_files : option Z) (datapaths : option (list string))
  (write_parquet timestamp_output : bool)
  (df : DataFrame) (m : StationMap).

Hypothesis loader_returns :
  env_load_clean_data env bikefolder num_files datapaths = Ok (df, m).
Hypothesis output_dir_named : output_dir ≠ "".

Local Abbreviation ppath := (primary_path env output_dir timestamp_output).
Local Abbreviation lpath := (latest_path output_dir).

Lemma dir_ok_primary a w' :
  dir_exists w' (Path.key output_dir) = true →
  dir_exists w' (Path.parent (Path.key (ppath a))) = true.
Proof.
  intros Hd. unfold primary_path.
  by rewrite parent_key_join by apply file_name_primary, run_ts_clock.
Qed.

Lemma dir_ok_latest a w' :
  dir_exists w' (Path.key output_dir) = true →
  dir_exists w' (Path.parent (Path.key (lpath a))) = true.
Proof.
  intros Hd. unfold latest_path.
  by rewrite parent_key_join by apply file_name_latest.
Qed.

Ltac dir_ok Hdir :=
  first
    [ apply (dir_ok_primary CleanedPickle)
    | apply (dir_ok_primary CleanedParquet)
    | apply (dir_ok_primary StationMapJson)
    | apply (dir_ok_primary StationMapPickle)
    | apply (dir_ok_primary StationNamesPickle)
    | apply (dir_ok_latest CleanedPickle)
    | apply (dir_ok_latest CleanedParquet)
    | apply (dir_ok_latest StationMapJson)
    | apply (dir_ok_latest StationMapPickle)
    | apply (dir_ok_latest StationNamesPickle) ];
  exact Hdir.

Ltac run_step Hdir :=
  first
    [ rewrite step_print
    | rewrite step_ret
    | rewrite step_df_to_pickle by dir_ok Hdir
    | rewrite step_pd_to_pickle by dir_ok Hdir
    | rewrite step_json_dump_to by dir_ok Hdir
    | rewrite step_parquet by dir_ok Hdir
    | rewrite step_latest_parquet by dir_ok Hdir ].

Ltac run_done :=
  repeat match goal with w' := _ : World |- _ => subst w' end;
  cbv [replay fold_left apply_event app write_step parquet_step
       artifact_content mret M_ret ret];
  reflexivity.

(** With a loader that returns and a named output directory, the run goes
    through to the end: it returns the three paths and leaves the world
    that its events make. *)
Lemma create_clean_data_run :
  create_clean_data bikefolder output_dir num_files datapaths
    write_parquet timestamp_output env w
  = (Ok (ppath CleanedPickle,
         returned_parquet env output_dir write_parquet timestamp_output df,
         ppath StationMapJson),
     replay (run_events env bikefolder output_dir num_files datapaths
               write_parquet timestamp_output df m) w).
Proof.
  unfold create_clean_data.
  rewrite step_print, (step_load _ _ _ _ _ _ _ loader_returns).
  rewrite step_ensure_dir by done.
  rewrite step_ts. cbv zeta.
  match goal with
  | |- context [make_dirs output_dir ?w0] =>
      pose proof (dir_exists_make_dirs output_dir w0) as Hdir;
      set (w1 := make_dirs output_dir w0) in *
  end.
  do 2 run_step Hdir.
  cbv [run_events primary_events latest_events returned_parquet
       primary_parquet_error latest_parquet_error primary_step latest_step
       primary_path latest_path primary_name latest_name
       artifact_stem artifact_ext primary_label latest_label].
  destruct write_parquet.
  - run_step Hdir.
    destruct (env_parquet_error env df
                (Path.join output_dir
                   (base_name "cleaned_data" ".parquet"
                      (run_ts env timestamp_output)))) as [e|].
    + simpl andb. cbv iota. repeat run_step Hdir. run_done.
    + simpl andb. cbv iota. do 9 run_step Hdir.
      destruct (env_parquet_error env df
                  (Path.join output_dir "cleaned_data_latest.parquet"))
        as [e|]; repeat run_step Hdir; run_done.
  - simpl andb. cbv iota. repeat run_step Hdir. run_done.
Qed.

End create_clean_data_run.

(** ** Files after a series of writes *)

Section files_facts.

Lemma writes_app evs1 evs2 : writes (evs1 ++ evs2) = writes evs1 ++ writes evs2.
Proof. apply omap_app. Qed.

Lemma files_replay evs w :
  files (replay evs w) = files_after (writes evs) (files w).
Proof.
  revert w. induction evs as [|e evs IH]; intros w; [done|].
  change (replay (e :: evs) w) with (replay evs (apply_event w e)).
  rewrite IH. destruct e; simpl; try done.
  by rewrite files_make_dirs.
Qed.

Lemma files_after_snoc ws p c fs :
  files_after (ws ++ [(p, c)]) fs = <[Path.key p := c]> (files_after ws fs).
Proof. unfold files_after. by rewrite fold_left_app. Qed.

(** A path that is not written keeps its file, or stays free. *)
Lemma files_after_other ws fs k :
  (∀ p c, (p, c) ∈ ws → Path.key p ≠ k) →
  files_after ws fs !! k = fs !! k.
Proof.
  induction ws as [|[p c] ws IH] using rev_ind; intros Hk; [done|].
  rewrite files_after_snoc, lookup_insert_ne.
  - apply IH. intros p' c' Hin. apply (Hk p' c'). set_solver.
  - apply (Hk p c). set_solver.
Qed.

(** When the writes to one file all store the same content, every written
    path holds what was written to it. *)
Lemma files_after_written ws fs p c :
  (∀ p1 c1 p2 c2, (p1, c1) ∈ ws → (p2, c2) ∈ ws →
                  Path.key p1 = Path.key p2 → c1 = c2) →
  (p, c) ∈ ws →
  files_after ws fs !! Path.key p = Some c.
Proof.
  induction ws as [|[p' c'] ws IH] using rev_ind; intros Hws Hin.
  { by apply elem_of_nil in Hin. }
  rewrite files_after_snoc.
  destruct (decide (Path.key p' = Path.key p)) as [Heq|Hne].
  - rewrite Heq, lookup_insert_eq. f_equal.
    apply (Hws p' c' p c); [set_solver|done|done].
  - rewrite lookup_insert_ne by done.
    apply IH.
    + intros p1 c1 p2 c2 H1 H2. apply Hws; set_solver.
    + apply elem_of_app in Hin as [Hin|Hin]; [done|].
      apply list_elem_of_singleton in Hin. congruence.
Qed.

Lemma dirs_replay_no_makedirs evs w :
  (∀ p, EvMakedirs p ∉ evs) → dirs (replay evs w) = dirs w.
Proof.
  revert w. induction evs as [|e evs IH]; intros w Hno; [done|].
  change (replay (e :: evs) w) with (replay evs (apply_event w e)).
  rewrite IH by (intros p Hp; apply (Hno p); set_solver).
  destruct e; try done. exfalso. apply (Hno path). set_solver.
Qed.

End files_facts.

(** ** The names of the copies never collide across artifacts *)

Section copy_names.

Ltac names_differ H :=
  unfold copy_name, primary_name in H;
  rewrite ?base_name_strftime, ?base_name_None in H;
  cbv [latest_name artifact_stem artifact_ext String.append
       strftime_Ymd_HM pad4 pad2] in H;
  discriminate H.

Lemma copy_name_artifact ts l1 a1 l2 a2 :
  clock_ts ts → copy_name ts l1 a1 = copy_name ts l2 a2 → a1 = a2.
Proof.
  intros [->|[d ->]] H; destruct l1, l2, a1, a2;
    try reflexivity; exfalso; names_differ H.
Qed.

(** The two copies of an artifact share a name in one case only: the JSON
    mapping of a run without timestamp. *)
Lemma copy_name_same_file ts a :
  clock_ts ts →
  primary_name ts a = latest_name a ↔ ts = None ∧ a = StationMapJson.
Proof.
  intros Hts. split.
  - destruct Hts as [->|[d ->]]; intros H; destruct a;
      try (split; reflexivity); exfalso; names_differ H.
  - intros [-> ->]. reflexivity.
Qed.

(** No copy of any artifact is called [station_id_to_names_latest.json]. *)
Lemma copy_name_not_latest_json ts l a :
  clock_ts ts → copy_name ts l a ≠ "station_id_to_names_latest.json".
Proof.
  intros [->|[d ->]] H; destruct l, a; names_differ H.
Qed.

(** Apart from the JSON mapping, the stable name of an artifact is its stem,
    [_latest] and its extension. *)
Lemma latest_name_suffix a :
  a ≠ StationMapJson →
  latest_name a = artifact_stem a +:+ "_latest" +:+ artifact_ext a.
Proof. by destruct a. Qed.

End copy_names.

(** ** What a run of [create_clean_data] writes *)

Section run_writes.
Context (env : Env) (output_dir : string)
  (write_parquet timestamp_output : bool) (df : DataFrame) (m : StationMap).

Local Abbreviation ppath := (primary_path env output_dir timestamp_output).
Local Abbreviation lpath := (latest_path output_dir).
Local Abbreviation err :=
  (primary_parquet_error env output_dir timestamp_output df).
Local Abbreviation err' := (latest_parquet_error env output_dir df).
Local Abbreviation pwrite :=
  (primary_write env output_dir timestamp_output df m).
Local Abbreviation lwrite := (latest_write output_dir df m).

Lemma writes_primary_events :
  writes (primary_events env output_dir write_parquet timestamp_output df m)
  = map pwrite (written_primary write_parquet err).
Proof.
  unfold primary_events, written_primary.
  destruct write_parquet; simpl; [|done].
  fold err. by destruct err.
Qed.

Lemma writes_latest_events :
  writes (latest_events env output_dir write_parquet timestamp_output df m)
  = map lwrite (written_latest write_parquet err err').
Proof.
  unfold latest_events, written_latest.
  destruct write_parquet; simpl; [|done].
  fold err. destruct err; simpl; [done|].
  fold err'. by destruct err'.
Qed.

Lemma writes_run_events bikefolder num_files datapaths :
  writes (run_events env bikefolder output_dir num_files datapaths
            write_parquet timestamp_output df m)
  = map pwrite (written_primary write_parquet err)
    ++ map lwrite (written_latest write_parquet err err').
Proof.
  unfold run_events. rewrite !writes_app.
  by rewrite writes_primary_events, writes_latest_events.
Qed.

(** Every write of the run is a copy of an artifact, with the content of
    that artifact. *)
Lemma run_write_inv p c :
  (p, c) ∈ map pwrite (written_primary write_parquet err)
           ++ map lwrite (written_latest write_parquet err err') →
  ∃ l a, p = Path.join output_dir
               (copy_name (run_ts env timestamp_output) l a)
         ∧ c = artifact_content df m a.
Proof.
  intros [Hin|Hin]%elem_of_app;
    apply list_elem_of_fmap in Hin as (a & [= -> ->] & _).
  - by exists false, a.
  - by exists true, a.
Qed.

Lemma file_name_copy l a :
  Path.file_name (copy_name (run_ts env timestamp_output) l a) = true.
Proof.
  destruct l; [apply file_name_latest|].
  apply file_name_primary, run_ts_clock.
Qed.

(** Two writes of the run that reach the same file store the same
    content. *)
Lemma run_writes_consistent p1 c1 p2 c2 :
  let ws := map pwrite (written_primary write_parquet err)
            ++ map lwrite (written_latest write_parquet err err') in
  (p1, c1) ∈ ws → (p2, c2) ∈ ws → Path.key p1 = Path.key p2 → c1 = c2.
Proof.
  intros ws (l1 & a1 & -> & ->)%run_write_inv (l2 & a2 & -> & ->)%run_write_inv.
  intros Hkey%key_join_inj; [|apply file_name_copy..].
  by apply copy_name_artifact in Hkey as ->; [|apply run_ts_clock].
Qed.

Lemma not_parquet_written_primary a :
  a ≠ CleanedParquet → a ∈ written_primary write_parquet err.
Proof. unfold written_primary. destruct a; set_solver. Qed.

Lemma not_parquet_written_latest a :
  a ≠ CleanedParquet → a ∈ written_latest write_parquet err err'.
Proof. unfold written_latest. destruct a; set_solver. Qed.

End run_writes.

Section run_outcome.
Context (env : Env) (w : World) (bikefolder output_dir : string)
  (num_files : option Z) (datapaths : option (list string))
  (write_parquet timestamp_output : bool) (df : DataFrame) (m : StationMap).

Hypothesis loader_returns :
  env_load_clean_data env bikefolder num_files datapaths = Ok (df, m).
Hypothesis output_dir_named : output_dir ≠ "".

Local Abbreviation ppath := (primary_path env output_dir timestamp_output).
Local Abbreviation lpath := (latest_path output_dir).
Local Abbreviation err :=
  (primary_parquet_error env output_dir timestamp_output df).
Local Abbreviation err' := (latest_parquet_error env output_dir df).
Local Abbreviation events :=
  (run_events env bikefolder output_dir num_files datapaths
     write_parquet timestamp_output df m).

Lemma new_events_replay evs : new_events w (replay evs w) = evs.
Proof. unfold new_events. by rewrite trace_replay, drop_app_length. Qed.

(** The run returns, and its world is the one its events make. *)
Lemma create_clean_data_outcome :
  ∃ w',
    create_clean_data bikefolder output_dir num_files datapaths
      write_parquet timestamp_output env w
    = (Ok (ppath CleanedPickle,
           returned_parquet env output_dir write_parquet timestamp_output df,
           ppath StationMapJson), w')
    ∧ new_events w w' = events
    ∧ files w' = files_after (writes events) (files w).
Proof.
  exists (replay events w). split_and!.
  - by apply create_clean_data_run.
  - apply new_events_replay.
  - apply files_replay.
Qed.

(** A first copy that was written is on disk when the run ends. *)
Lemma primary_copy_on_disk a :
  a ∈ written_primary write_parquet err →
  files_after (writes events) (files w) !! Path.key (ppath a)
  = Some (artifact_content df m a).
Proof.
  intros Ha. rewrite writes_run_events.
  apply files_after_written; [apply run_writes_consistent|].
  apply elem_of_app. left. apply list_elem_of_fmap. by exists a.
Qed.

(** So is a stable copy. *)
Lemma latest_copy_on_disk a :
  a ∈ written_latest write_parquet err err' →
  files_after (writes events) (files w) !! Path.key (lpath a)
  = Some (artifact_content df m a).
Proof.
  intros Ha. rewrite writes_run_events.
  apply files_after_written; [apply run_writes_consistent|].
  apply elem_of_app. right. apply list_elem_of_fmap. by exists a.
Qed.

End run_outcome.

Lemma elem_of_writes evs p c : (p, c) ∈ writes evs ↔ EvWrite p c ∈ evs.
Proof.
  unfold writes. rewrite list_elem_of_omap. split.
  - intros (e & He & Hpc). destruct e; simplify_eq. done.
  - intros He. by exists (EvWrite p c).
Qed.

(** * Main results *)

(** ** C1: a parquet failure is recovered from *)

(** C1.  When parquet output is asked for and the parquet write of the trip
    table raises, [create_clean_data] catches the exception and logs it with
    its message, returns [None] as the parquet path between the pickle path
    and the JSON path, and still writes the pickled trip table and the three
    forms of the station mapping, each with its stable copy; no parquet file
    is written. *)
Theorem create_clean_data_recovers_from_parquet_failure
    env w bikefolder output_dir num_files datapaths timestamp_output df m e :
  env_load_clean_data env bikefolder num_files datapaths = Ok (df, m) →
  output_dir ≠ "" →
  env_parquet_error env df
    (primary_path env output_dir timestamp_output CleanedParquet) = Some e →
  ∃ w',
    create_clean_data bikefolder output_dir num_files datapaths
      true timestamp_output env w
    = (Ok (primary_path env output_dir timestamp_output CleanedPickle,
           None,
           primary_path env output_dir timestamp_output StationMapJson), w')
    ∧ EvPrint (primary_failure +:+ str_exn e) ∈ new_events w w'
    ∧ (∀ a, a ≠ CleanedParquet →
         EvWrite (primary_path env output_dir timestamp_output a)
           (artifact_content df m a) ∈ new_events w w'
         ∧ EvWrite (latest_path output_dir a)
             (artifact_content df m a) ∈ new_events w w'
         ∧ files w' !! Path.key (primary_path env output_dir timestamp_output a)
           = Some (artifact_content df m a)
         ∧ files w' !! Path.key (latest_path output_dir a)
           = Some (artifact_content df m a))
    ∧ (∀ p df', EvWrite p (Parquet df') ∉ new_events w w').
Proof.
  intros Hload Hout Herr.
  destruct (create_clean_data_outcome env w bikefolder output_dir num_files
              datapaths true timestamp_output df m Hload Hout)
    as (w' & Hrun & Hnew & Hfiles).
  assert (primary_parquet_error env output_dir timestamp_output df = Some e)
    as Herr1 by done.
  exists w'. split_and!.
  - rewrite Hrun. unfold returned_parquet. by rewrite Herr1.
  - rewrite Hnew. unfold run_events, primary_events. rewrite Herr1.
    set_solver.
  - intros a Ha. rewrite Hnew, Hfiles, <- !elem_of_writes. split_and!.
    + rewrite writes_run_events.
      apply elem_of_app. left. apply list_elem_of_fmap. exists a.
      split; [done|]. by apply not_parquet_written_primary.
    + rewrite writes_run_events.
      apply elem_of_app. right. apply list_elem_of_fmap. exists a.
      split; [done|]. by apply not_parquet_written_latest.
    + by apply primary_copy_on_disk; [..|apply not_parquet_written_primary].
    + by apply latest_copy_on_disk; [..|apply not_parquet_written_latest].
  - intros p df'. rewrite Hnew, <- elem_of_writes, writes_run_events.
    rewrite Herr1. unfold written_primary, written_latest. simpl.
    unfold primary_write, latest_write, artifact_content. intros Hin.
    repeat (apply elem_of_cons in Hin as [Heq|Hin]; [discriminate Heq|]).
    by apply elem_of_nil in Hin.
Qed.

(** The theorem at a sample run without a parquet engine. *)
Lemma create_clean_data_recovers_from_parquet_failure_witness :
  ∃ w',
    create_clean_data "csvs" "out" None None true true
      (Sample.env Sample.no_engine) Sample.w0
    = (Ok ("out/cleaned_data_20240307_0905.pickle", None,
           "out/station_id_to_names_20240307_0905.json"), w')
    ∧ EvPrint (primary_failure +:+ "Unable to find a usable engine")
      ∈ new_events Sample.w0 w'.
Proof.
  destruct (create_clean_data_recovers_from_parquet_failure
              (Sample.env Sample.no_engine) Sample.w0 "csvs" "out" None None
              true Sample.df Sample.stations
              (Exception "ImportError" "Unable to find a usable engine"))
    as (w' & Hrun & Hlog & _); [reflexivity|done|reflexivity|].
  exists w'. split; [exact Hrun|exact Hlog].
Defined.

(** ** C2: the JSON form of the station mapping *)

Section dict_facts.
Context {K V : Type} `{EqDecision K}.

Lemma dict_set_fresh (k : K) (v : V) (d : dict K V) :
  k ∉ dict_keys d → dict_set k v d = d ++ [(k, v)].
Proof.
  induction d as [|[k' v'] d IH]; intros Hk; simpl; [done|].
  unfold dict_keys in Hk. simpl in Hk.
  apply not_elem_of_cons in Hk as [Hne Hk].
  rewrite decide_False by done. by rewrite IH.
Qed.

Lemma dict_get_Some (k : K) (v : V) (d : dict K V) :
  NoDup (dict_keys d) → (k, v) ∈ d ↔ dict_get k d = Some v.
Proof.
  induction d as [|[k' v'] d IH]; intros Hnd; simpl.
  { split; [by intros ?%elem_of_nil|done]. }
  unfold dict_keys in Hnd. simpl in Hnd.
  apply NoDup_cons in Hnd as [Hk' Hnd].
  rewrite elem_of_cons. destruct (decide (k' = k)) as [->|Hne].
  - split; [|naive_solver].
    intros [[= ->]|Hin]; [done|]. exfalso. apply Hk'.
    apply list_elem_of_fmap. by exists (k, v).
  - rewrite <- IH by done. naive_solver.
Qed.

End dict_facts.

Section sorted_list_facts.

Lemma sorted_list_sorted v : StronglySorted String.le (sorted_list v).
Proof. apply StronglySorted_merge_sort; apply _. Qed.

Lemma sorted_list_perm v : sorted_list v ≡ₚ elements v.
Proof. apply merge_sort_Permutation. Qed.

Lemma elem_of_sorted_list v x : x ∈ sorted_list v ↔ x ∈ v.
Proof. by rewrite sorted_list_perm, elem_of_elements. Qed.

Lemma sorted_list_NoDup v : NoDup (sorted_list v).
Proof. rewrite sorted_list_perm. apply NoDup_elements. Qed.

(** The sorted list of a set does not depend on the order in which the
    set is enumerated. *)
Lemma sorted_list_unique v l :
  StronglySorted String.le l → l ≡ₚ elements v → l = sorted_list v.
Proof.
  intros Hl Hperm. apply (StronglySorted_unique String.le); [done| |].
  - apply sorted_list_sorted.
  - by rewrite sorted_list_perm.
Qed.

End sorted_list_facts.

Section serializable_station_map_facts.

#[global] Instance py_int_inj : Inj (=) (=) py_int.
Proof. intros [z1] [z2]. simpl. congruence. Qed.

Lemma serializable_station_map_go (m : StationMap) acc :
  NoDup (dict_keys acc ++ map py_int (dict_keys m)) →
  fold_left (λ acc kv, dict_set (py_int kv.1) (sorted_list kv.2) acc) m acc
  = acc ++ map (λ kv, (py_int kv.1, sorted_list kv.2)) m.
Proof.
  revert acc. induction m as [|[k v] m IH]; intros acc Hnd; simpl.
  { by rewrite app_nil_r. }
  assert (py_int k ∉ dict_keys acc) as Hfresh.
  { apply NoDup_app in Hnd as (_ & Hdisj & _).
    intros Hin. apply (Hdisj _ Hin). simpl. set_solver. }
  rewrite dict_set_fresh by done. rewrite IH.
  - by rewrite <- app_assoc.
  - unfold dict_keys in *. rewrite map_app. simpl in *.
    by rewrite <- app_assoc.
Qed.

(** On a dictionary the comprehension maps the entries one by one, in
    order. *)
Lemma serializable_station_map_entries (m : StationMap) :
  NoDup (dict_keys m) →
  serializable_station_map m
  = map (λ kv, (py_int kv.1, sorted_list kv.2)) m.
Proof.
  intros Hnd. unfold serializable_station_map.
  rewrite serializable_station_map_go; [done|].
  simpl. by apply (NoDup_fmap_2 py_int).
Qed.

End serializable_station_map_facts.

(** C2.  For a station mapping (a dictionary from identifiers to sets of
    names), the JSON-serialisable form built by [create_clean_data] has the
    same keys in the same order, each coerced with [int]; the value of a key
    is the list of the elements of its set, in ascending order and without
    repetition, whatever the order in which the set is enumerated; and the
    JSON document has the decimal strings of the keys as member names and
    these lists as arrays. *)
Theorem serializable_station_map_spec (m : StationMap) :
  NoDup (dict_keys m) →
  dict_keys (serializable_station_map m) = map py_int (dict_keys m)
  ∧ (∀ k v, dict_get k m = Some v →
       dict_get (py_int k) (serializable_station_map m) = Some (sorted_list v)
       ∧ StronglySorted String.le (sorted_list v)
       ∧ NoDup (sorted_list v)
       ∧ (∀ name, name ∈ sorted_list v ↔ name ∈ v)
       ∧ (∀ l, StronglySorted String.le l → l ≡ₚ elements v →
               l = sorted_list v))
  ∧ (∀ i names, dict_get i (serializable_station_map m) = Some names →
       ∃ k v, py_int k = i ∧ dict_get k m = Some v ∧ names = sorted_list v)
  ∧ json_of_station_map (serializable_station_map m)
    = JObject (map (λ kv, (pretty (py_int kv.1),
                           JArray (map JString (sorted_list kv.2)))) m).
Proof.
  intros Hnd.
  assert (NoDup (dict_keys (map (λ kv : station_id * gset string,
                                   (py_int kv.1, sorted_list kv.2)) m)))
    as Hnd'.
  { unfold dict_keys. rewrite map_map. simpl.
    rewrite <- (map_map fst py_int).
    by apply (NoDup_fmap_2 py_int). }
  rewrite serializable_station_map_entries by done. split_and!.
  - unfold dict_keys. by rewrite !map_map.
  - intros k v Hget. split_and!.
    + apply dict_get_Some; [done|].
      apply dict_get_Some in Hget; [|done].
      apply list_elem_of_fmap. by exists (k, v).
    + apply sorted_list_sorted.
    + apply sorted_list_NoDup.
    + apply elem_of_sorted_list.
    + apply sorted_list_unique.
  - intros i names Hget. apply dict_get_Some in Hget; [|done].
    apply list_elem_of_fmap in Hget as ([k v] & [= -> ->] & Hin).
    exists k, v. split_and!; [done| |done]. by apply dict_get_Some.
  - unfold json_of_station_map. by rewrite map_map.
Qed.

(** The theorem at the mapping [{3: {"King's Cross", "Kings X"}}]. *)
Lemma serializable_station_map_spec_witness :
  NoDup (dict_keys [(StationId 3, ({["Kings X"; "King's Cross"]} : gset string))])
  ∧ json_of_station_map
      (serializable_station_map
         [(StationId 3, {["Kings X"; "King's Cross"]})])
    = JObject [("3", JArray [JString "King's Cross"; JString "Kings X"])].
Proof.
  assert (NoDup (dict_keys
            [(StationId 3, ({["Kings X"; "King's Cross"]} : gset string))]))
    as Hnd by (apply NoDup_singleton).
  split; [exact Hnd|].
  destruct (serializable_station_map_spec _ Hnd) as (_ & _ & _ & ->).
  reflexivity.
Defined.

(** ** C3: the stable copies come after the first copies *)

Section latest_events_facts.
Context (env : Env) (output_dir : string)
  (write_parquet timestamp_output : bool) (df : DataFrame) (m : StationMap).

Local Abbreviation err :=
  (primary_parquet_error env output_dir timestamp_output df).
Local Abbreviation err' := (latest_parquet_error env output_dir df).

(** A first copy that was written has its stable copy, unless it is the
    parquet one and the engine refused the second write. *)
Lemma written_primary_latest a :
  a ∈ written_primary write_parquet err →
  a ∈ written_latest write_parquet err err'
  ∨ (a = CleanedParquet ∧ ∃ e, err' = Some e).
Proof.
  unfold written_primary, written_latest.
  destruct write_parquet, err, err'; simpl; set_solver.
Qed.

(** A refused second parquet write is logged, like the first. *)
Lemma latest_failure_logged e :
  CleanedParquet ∈ written_primary write_parquet err →
  err' = Some e →
  EvPrint (latest_failure +:+ str_exn e)
  ∈ latest_events env output_dir write_parquet timestamp_output df m.
Proof.
  unfold written_primary, latest_events. intros Hin He'.
  destruct write_parquet; [|set_solver].
  fold err in *. destruct err; [set_solver|].
  fold err'. rewrite He'. simpl. set_solver.
Qed.

End latest_events_facts.

(** C3.  Every run of [create_clean_data] that gets a table from the loader
    goes through two parts, in this order: the first copies, then the stable
    copies.  Whatever the timestamp toggle, every artifact whose first copy
    was written gets its stable copy, with the same content; the stable
    parquet copy is attempted exactly when the first one was written, and a
    failure of that attempt is caught and logged while the run goes on to
    the remaining stable copies and returns. *)
Theorem stable_copies_follow_first_copies
    env w bikefolder output_dir num_files datapaths
    write_parquet timestamp_output df m :
  env_load_clean_data env bikefolder num_files datapaths = Ok (df, m) →
  output_dir ≠ "" →
  let err := primary_parquet_error env output_dir timestamp_output df in
  let err' := latest_parquet_error env output_dir df in
  let first :=
    primary_events env output_dir write_parquet timestamp_output df m in
  let stable :=
    latest_events env output_dir write_parquet timestamp_output df m in
  ∃ w' paths,
    create_clean_data bikefolder output_dir num_files datapaths
      write_parquet timestamp_output env w = (Ok paths, w')
    ∧ new_events w w'
      = [EvPrint ("Loading raw trips from: " +:+ bikefolder);
         EvLoad bikefolder num_files datapaths;
         EvMakedirs output_dir] ++ first ++ stable
    ∧ writes first
      = map (primary_write env output_dir timestamp_output df m)
          (written_primary write_parquet err)
    ∧ writes stable
      = map (latest_write output_dir df m)
          (written_latest write_parquet err err')
    ∧ (∀ a, a ≠ CleanedParquet → a ∈ written_latest write_parquet err err')
    ∧ (∀ a, a ∈ written_primary write_parquet err →
         a ∈ written_latest write_parquet err err'
         ∨ (a = CleanedParquet
            ∧ ∃ e, err' = Some e
                   ∧ EvPrint (latest_failure +:+ str_exn e) ∈ stable))
    ∧ (∀ a, a ∈ written_latest write_parquet err err' →
         a ∈ written_primary write_parquet err
         ∧ files w' !! Path.key (latest_path output_dir a)
           = Some (artifact_content df m a)).
Proof.
  intros Hload Hout err err' first stable.
  destruct (create_clean_data_outcome env w bikefolder output_dir num_files
              datapaths write_parquet timestamp_output df m Hload Hout)
    as (w' & Hrun & Hnew & Hfiles).
  exists w'. eexists. split_and!.
  - exact Hrun.
  - exact Hnew.
  - apply writes_primary_events.
  - apply writes_latest_events.
  - apply not_parquet_written_latest.
  - intros a Ha.
    destruct (written_primary_latest env output_dir write_parquet
                timestamp_output df a Ha) as [?|[-> [e He]]]; [by left|].
    right. split; [done|]. exists e. split; [done|].
    by apply latest_failure_logged.
  - intros a Ha. split.
    + revert Ha. unfold written_primary, written_latest.
      destruct write_parquet, err, err'; simpl; set_solver.
    + rewrite Hfiles. by apply latest_copy_on_disk.
Qed.

(** The theorem at a sample run with a parquet engine. *)
Lemma stable_copies_follow_first_copies_witness :
  ∃ w' paths,
    create_clean_data "csvs" "out" None None true true
      (Sample.env Sample.engine_ok) Sample.w0 = (Ok paths, w')
    ∧ writes (new_events Sample.w0 w')
      = map (primary_write (Sample.env Sample.engine_ok) "out" true
               Sample.df Sample.stations)
          [CleanedPickle; CleanedParquet; StationMapJson; StationMapPickle;
           StationNamesPickle]
        ++ map (latest_write "out" Sample.df Sample.stations)
             [CleanedPickle; CleanedParquet; StationMapJson; StationMapPickle;
              StationNamesPickle].
Proof.
  destruct (stable_copies_follow_first_copies
              (Sample.env Sample.engine_ok) Sample.w0 "csvs" "out" None None
              true true Sample.df Sample.stations)
    as (w' & paths & Hrun & Hnew & Hfirst & Hstable & _);
    [reflexivity|done|].
  exists w', paths. split; [exact Hrun|].
  rewrite Hnew, !writes_app, Hfirst, Hstable. reflexivity.
Defined.


(** ** C8: the pickled trip table can be read back *)

(** C8.  For every table the loader returns (empty or not), the file at the
    pickle path that [create_clean_data] returns holds, when the run ends,
    the pickled table of the loader: reading it back gives that table.  The
    same holds for the stable copy. *)
Theorem pickled_table_reads_back
    env w bikefolder output_dir num_files datapaths
    write_parquet timestamp_output df m :
  env_load_clean_data env bikefolder num_files datapaths = Ok (df, m) →
  output_dir ≠ "" →
  ∃ w' pickle_fpath parquet_fpath station_map_fpath,
    create_clean_data bikefolder output_dir num_files datapaths
      write_parquet timestamp_output env w
    = (Ok (pickle_fpath, parquet_fpath, station_map_fpath), w')
    ∧ EvWrite pickle_fpath (Pickle (PyDataFrame df)) ∈ new_events w w'
    ∧ load_pickle w' pickle_fpath = Some (PyDataFrame df)
    ∧ load_pickle w' (latest_path output_dir CleanedPickle)
      = Some (PyDataFrame df).
Proof.
  intros Hload Hout.
  destruct (create_clean_data_outcome env w bikefolder output_dir num_files
              datapaths write_parquet timestamp_output df m Hload Hout)
    as (w' & Hrun & Hnew & Hfiles).
  exists w'. do 3 eexists. split_and!; [exact Hrun|..].
  - rewrite Hnew, <- elem_of_writes, writes_run_events.
    apply elem_of_app. left. apply list_elem_of_fmap.
    exists CleanedPickle. split; [done|].
    by apply not_parquet_written_primary.
  - unfold load_pickle. rewrite Hfiles.
    rewrite (primary_copy_on_disk env w bikefolder output_dir num_files
               datapaths write_parquet timestamp_output df m CleanedPickle);
      [done|]. by apply not_parquet_written_primary.
  - unfold load_pickle. rewrite Hfiles.
    rewrite (latest_copy_on_disk env w bikefolder output_dir num_files
               datapaths write_parquet timestamp_output df m CleanedPickle);
      [done|]. by apply not_parquet_written_latest.
Qed.

(** The theorem at a sample run. *)
Lemma pickled_table_reads_back_witness :
  ∃ w' pickle_fpath parquet_fpath station_map_fpath,
    create_clean_data "csvs" "out" None None true false
      (Sample.env Sample.engine_ok) Sample.w0
    = (Ok (pickle_fpath, parquet_fpath, station_map_fpath), w')
    ∧ load_pickle w' pickle_fpath = Some (PyDataFrame Sample.df).
Proof.
  destruct (pickled_table_reads_back
              (Sample.env Sample.engine_ok) Sample.w0 "csvs" "out" None None
              true false Sample.df Sample.stations)
    as (w' & p1 & p2 & p3 & Hrun & _ & Hread & _); [reflexivity|done|].
  exists w', p1, p2, p3. split; [exact Hrun|exact Hread].
Defined.

(** ** C4: the stable copy of the JSON mapping is not called [_latest] *)

Lemma join_file_name_inj d n1 n2 :
  Path.file_name n1 = true → Path.file_name n2 = true →
  Path.join d n1 = Path.join d n2 → n1 = n2.
Proof.
  intros Hn1 Hn2 Heq. apply (key_join_inj d); [done..|]. by rewrite Heq.
Qed.

(** C4, on the code.  In every run of [create_clean_data] the stable copy
    of the JSON mapping goes to [station_id_to_names.json]; nothing is
    written to [station_id_to_names_latest.json], which is left as it was,
    while the stable copies of the four other artifacts carry [_latest]
    between stem and extension. *)
Theorem stable_json_copy_lacks_latest_suffix
    env w bikefolder output_dir num_files datapaths
    write_parquet timestamp_output df m :
  env_load_clean_data env bikefolder num_files datapaths = Ok (df, m) →
  output_dir ≠ "" →
  let expected := Path.join output_dir "station_id_to_names_latest.json" in
  ∃ w' paths,
    create_clean_data bikefolder output_dir num_files datapaths
      write_parquet timestamp_output env w = (Ok paths, w')
    ∧ EvWrite (Path.join output_dir "station_id_to_names.json")
        (artifact_content df m StationMapJson) ∈ new_events w w'
    ∧ (∀ c, EvWrite expected c ∉ new_events w w')
    ∧ files w' !! Path.key expected = files w !! Path.key expected
    ∧ (∀ a, a ≠ StationMapJson →
         latest_name a = artifact_stem a +:+ "_latest" +:+ artifact_ext a).
Proof.
  intros Hload Hout expected.
  destruct (create_clean_data_outcome env w bikefolder output_dir num_files
              datapaths write_parquet timestamp_output df m Hload Hout)
    as (w' & Hrun & Hnew & Hfiles).
  assert (∀ p c,
            (p, c) ∈ writes (run_events env bikefolder output_dir num_files
                               datapaths write_parquet timestamp_output df m) →
            Path.key p ≠ Path.key expected) as Hother.
  { intros p c. rewrite writes_run_events.
    intros (l & a & -> & _)%run_write_inv Hkey.
    apply key_join_inj in Hkey; [|by apply file_name_copy|done].
    by apply copy_name_not_latest_json in Hkey; [|apply run_ts_clock]. }
  exists w'. eexists. split_and!; [exact Hrun|..].
  - rewrite Hnew, <- elem_of_writes, writes_run_events.
    apply elem_of_app. right. apply list_elem_of_fmap.
    exists StationMapJson. split; [done|].
    by apply not_parquet_written_latest.
  - intros c. rewrite Hnew, <- elem_of_writes. intros Hin.
    by apply (Hother _ _ Hin).
  - rewrite Hfiles. by apply files_after_other.
  - apply latest_name_suffix.
Qed.

(** The theorem at a sample run: the stable JSON copy is
    [out/station_id_to_names.json], and [out/station_id_to_names_latest.json]
    does not exist afterwards. *)
Lemma stable_json_copy_lacks_latest_suffix_witness :
  ∃ w' paths,
    create_clean_data "csvs" "out" None None true true
      (Sample.env Sample.engine_ok) Sample.w0 = (Ok paths, w')
    ∧ EvWrite "out/station_id_to_names.json"
        (artifact_content Sample.df Sample.stations StationMapJson)
      ∈ new_events Sample.w0 w'
    ∧ files w' !! Path.key "out/station_id_to_names_latest.json" = None.
Proof.
  destruct (stable_json_copy_lacks_latest_suffix
              (Sample.env Sample.engine_ok) Sample.w0 "csvs" "out" None None
              true true Sample.df Sample.stations)
    as (w' & paths & Hrun & Hjson & _ & Hfile & _); [reflexivity|done|].
  exists w', paths. split_and!; [exact Hrun|exact Hjson|exact Hfile].
Defined.

(** ** C9: without timestamp the JSON mapping has one file *)

Lemma files_after_lookup_inv ws fs k c :
  files_after ws fs !! k = Some c →
  (∃ p, (p, c) ∈ ws ∧ Path.key p = k) ∨ fs !! k = Some c.
Proof.
  induction ws as [|[p' c'] ws IH] using rev_ind; [by right|].
  rewrite files_after_snoc.
  destruct (decide (Path.key p' = k)) as [<-|Hne].
  - rewrite lookup_insert_eq. intros [= <-]. left. exists p'.
    split; [set_solver|done].
  - rewrite lookup_insert_ne by done. intros [(p & Hin & Hk)|Hfs]%IH.
    + left. exists p. split; [set_solver|done].
    + by right.
Qed.

(** A copy of an artifact other than the JSON mapping neither reaches the
    file of the JSON mapping nor holds JSON. *)
Lemma other_copy_not_json env output_dir df m l a :
  a ≠ StationMapJson →
  Path.key (Path.join output_dir (copy_name (run_ts env false) l a))
  ≠ Path.key (Path.join output_dir "station_id_to_names.json")
  ∧ ∀ j, artifact_content df m a ≠ Json j.
Proof.
  intros Ha. split.
  - intros Hkey. apply key_join_inj in Hkey; [|by apply file_name_copy|done].
    apply Ha.
    apply (copy_name_artifact (run_ts env false) l a true StationMapJson);
      [apply run_ts_clock|done].
  - by destruct a.
Qed.

(** C9.  In a run of [create_clean_data] without timestamp, the first copy
    and the stable copy of the JSON mapping have one and the same path,
    [station_id_to_names.json] in the output directory.  The run writes the
    mapping to it twice and writes JSON nowhere else, so that it leaves one
    JSON file; the first and the stable copy of every other artifact are
    different files. *)
Theorem json_mapping_written_twice_to_one_file
    env w bikefolder output_dir num_files datapaths write_parquet df m :
  env_load_clean_data env bikefolder num_files datapaths = Ok (df, m) →
  output_dir ≠ "" →
  let json_path := Path.join output_dir "station_id_to_names.json" in
  let json := artifact_content df m StationMapJson in
  primary_path env output_dir false StationMapJson = json_path
  ∧ latest_path output_dir StationMapJson = json_path
  ∧ ∃ w' paths,
      create_clean_data bikefolder output_dir num_files datapaths
        write_parquet false env w = (Ok paths, w')
      ∧ (∃ ws1 ws2 ws3,
           writes (new_events w w')
           = ws1 ++ [(json_path, json)] ++ ws2 ++ [(json_path, json)] ++ ws3
           ∧ ∀ p c, (p, c) ∈ ws1 ++ ws2 ++ ws3 →
                    Path.key p ≠ Path.key json_path ∧ ∀ j, c ≠ Json j)
      ∧ files w' !! Path.key json_path = Some json
      ∧ (∀ k j, files w' !! k = Some (Json j) →
                k = Path.key json_path ∨ files w !! k = Some (Json j))
      ∧ (∀ a, a ≠ StationMapJson →
              Path.key (primary_path env output_dir false a)
              ≠ Path.key (latest_path output_dir a)).
Proof.
  intros Hload Hout json_path json.
  split; [reflexivity|]. split; [reflexivity|].
  destruct (create_clean_data_outcome env w bikefolder output_dir num_files
              datapaths write_parquet false df m Hload Hout)
    as (w' & Hrun & Hnew & Hfiles).
  exists w'. eexists. split_and!; [exact Hrun|..].
  - rewrite Hnew, writes_run_events.
    unfold written_primary, written_latest.
    set (pq := if write_parquet && _ then _ else _).
    set (pq' := if write_parquet && _ && _ then _ else _).
    assert (StationMapJson ∉ [CleanedPickle] ++ pq) as Hpq.
    { subst pq. destruct (write_parquet && _); set_solver. }
    assert (StationMapJson ∉ [CleanedPickle] ++ pq') as Hpq'.
    { subst pq'. destruct (write_parquet && _ && _); set_solver. }
    exists (map (primary_write env output_dir false df m)
              ([CleanedPickle] ++ pq)),
      (map (primary_write env output_dir false df m)
         [StationMapPickle; StationNamesPickle]
       ++ map (latest_write output_dir df m) ([CleanedPickle] ++ pq')),
      (map (latest_write output_dir df m)
         [StationMapPickle; StationNamesPickle]).
    split.
    { rewrite !map_app. simpl. by rewrite <- !app_assoc. }
    intros p c Hin.
    assert (∃ l a, a ≠ StationMapJson
                   ∧ p = Path.join output_dir (copy_name (run_ts env false) l a)
                   ∧ c = artifact_content df m a) as (l & a & Ha & -> & ->).
    { rewrite !elem_of_app, !list_elem_of_fmap in Hin.
      destruct Hin as [(a & [= -> ->] & Ha)
                      |[[(a & [= -> ->] & Ha)|(a & [= -> ->] & Ha)]
                       |(a & [= -> ->] & Ha)]].
      - exists false, a. split_and!; [|done..]. by intros ->.
      - exists false, a. split_and!; [|done..]. set_solver.
      - exists true, a. split_and!; [|done..]. by intros ->.
      - exists true, a. split_and!; [|done..]. set_solver. }
    by apply other_copy_not_json.
  - rewrite Hfiles.
    apply (latest_copy_on_disk env w bikefolder output_dir num_files
             datapaths write_parquet false df m StationMapJson);
      [done..|]. by apply not_parquet_written_latest.
  - intros k j. rewrite Hfiles.
    intros [(p & Hin & <-)|Hfs]%files_after_lookup_inv; [left|by right].
    rewrite writes_run_events in Hin.
    apply run_write_inv in Hin as (l & a & -> & Hc).
    destruct a; try discriminate Hc. by destruct l.
  - intros a Ha Hkey.
    apply key_join_inj in Hkey;
      [|apply (file_name_copy env false false)|apply file_name_latest].
    apply (copy_name_same_file (run_ts env false)) in Hkey as [_ ->];
      [done|apply run_ts_clock].
Qed.

(** The theorem at a sample run without timestamp and without parquet. *)
Lemma json_mapping_written_twice_to_one_file_witness :
  ∃ w' paths,
    create_clean_data "csvs" "out" None None false false
      (Sample.env Sample.engine_ok) Sample.w0 = (Ok paths, w')
    ∧ files w' !! Path.key "out/station_id_to_names.json"
      = Some (artifact_content Sample.df Sample.stations StationMapJson)
    ∧ ∀ k j, files w' !! k = Some (Json j) →
             k = Path.key "out/station_id_to_names.json".
Proof.
  destruct (json_mapping_written_twice_to_one_file
              (Sample.env Sample.engine_ok) Sample.w0 "csvs" "out" None None
              false Sample.df Sample.stations)
    as (_ & _ & w' & paths & Hrun & _ & Hfile & Hone & _);
    [reflexivity|done|].
  exists w', paths. split_and!; [exact Hrun|exact Hfile|].
  intros k j Hk. destruct (Hone k j Hk) as [->|Hw0]; [reflexivity|].
  discriminate Hw0.
Defined.

(** ** The command line *)

Section parse_args_facts.

Lemma only_stations_pickle_fold argv a :
  args_only_stations_pickle (fold_left apply_option argv a) = true
  ↔ args_only_stations_pickle a = true ∨ OptOnlyStationsPickle ∈ argv.
Proof.
  revert a. induction argv as [|o argv IH]; intros a; simpl.
  { rewrite elem_of_nil. naive_solver. }
  rewrite IH, elem_of_cons. destruct o; simpl; naive_solver.
Qed.

(** The flag [--only-stations-pickle] sets its [dest], and nothing else
    does. *)
Lemma only_stations_pickle_given argv :
  args_only_stations_pickle (parse_args argv) = true
  ↔ OptOnlyStationsPickle ∈ argv.
Proof.
  unfold parse_args. rewrite only_stations_pickle_fold. simpl. naive_solver.
Qed.

Lemma parse_args_snoc argv o :
  parse_args (argv ++ [o]) = apply_option (parse_args argv) o.
Proof. unfold parse_args. by rewrite fold_left_app. Qed.

End parse_args_facts.

Section main_steps.
Context {B : Type} (env : Env) (w : World).

Lemma step_load_config (k : Config → M B) cfg :
  env_config env = Ok cfg → (load_config ≫= k) env w = k cfg env w.
Proof.
  intros Hcfg. unfold mbind, M_bind, bind, load_config. by rewrite Hcfg.
Qed.

Lemma step_ask (k : Env → M B) : (ask ≫= k) env w = k env env w.
Proof. reflexivity. Qed.

Lemma step_write_refused (k : unit → M B) path c :
  dir_exists w (Path.parent (Path.key path)) = false →
  (write_file path c ≫= k) env w = (Raise (no_such_directory path), w).
Proof.
  intros Hd. unfold mbind, M_bind, bind, write_file. by rewrite Hd.
Qed.

End main_steps.

(** ** C5: the mode of [--only-stations-pickle] *)

(** C5.  With [--only-stations-pickle] on the command line, a readable
    configuration, a loader that returns and an output directory that
    exists, [main] calls the loader and then writes two files and no more:
    the set-valued mapping, pickled, under the timestamped (or base) name
    [station_names...pickle] and under [station_names_latest.pickle].  The
    two are different files; no trip table, no JSON and no sorted-list
    pickle is written, and no directory is made. *)
Theorem only_stations_pickle_writes_two_files env w argv cfg df m :
  OptOnlyStationsPickle ∈ argv →
  env_config env = Ok cfg →
  let args := parse_args argv in
  let csv_dir := resolved_csv_dir env cfg args in
  let output_dir := resolved_output_dir env cfg args in
  let names_fpath :=
    Path.join output_dir
      (primary_name (run_ts env (args_timestamp_output args))
         StationNamesPickle) in
  let latest_fpath := Path.join output_dir "station_names_latest.pickle" in
  env_load_clean_data env csv_dir (args_num_files args) None = Ok (df, m) →
  dir_exists w (Path.key output_dir) = true →
  ∃ w',
    main argv env w = (Ok tt, w')
    ∧ new_events w w'
      = stations_only_prelude env cfg args
        ++ [EvWrite names_fpath (Pickle (PySetMap m));
            EvPrint ("Writing latest raw station names pickle: "
                     +:+ latest_fpath);
            EvWrite latest_fpath (Pickle (PySetMap m))]
    ∧ writes (new_events w w')
      = [(names_fpath, Pickle (PySetMap m));
         (latest_fpath, Pickle (PySetMap m))]
    ∧ Path.key names_fpath ≠ Path.key latest_fpath
    ∧ files w'
      = <[Path.key latest_fpath := Pickle (PySetMap m)]>
          (<[Path.key names_fpath := Pickle (PySetMap m)]> (files w))
    ∧ dirs w' = dirs w.
Proof.
  intros Hflag Hcfg args csv_dir output_dir names_fpath latest_fpath
    Hload Hdir.
  apply only_stations_pickle_given in Hflag.
  change (args_only_stations_pickle args = true) in Hflag.
  assert (Path.parent (Path.key names_fpath) = Path.key output_dir) as Hp1.
  { apply parent_key_join, file_name_primary, run_ts_clock. }
  assert (Path.parent (Path.key latest_fpath) = Path.key output_dir) as Hp2.
  { by apply parent_key_join. }
  set (events :=
         stations_only_prelude env cfg args
         ++ [EvWrite names_fpath (Pickle (PySetMap m));
             EvPrint ("Writing latest raw station names pickle: "
                      +:+ latest_fpath);
             EvWrite latest_fpath (Pickle (PySetMap m))]).
  assert (main argv env w = (Ok tt, replay events w)) as Hrun.
  { unfold main, main_with. fold args.
    rewrite (step_load_config _ _ _ _ Hcfg), step_ask. cbv zeta.
    fold (data_root_dir env cfg). fold (default_csv_dir env cfg).
    fold (resolved_csv_dir env cfg args).
    fold (resolved_output_dir env cfg args).
    fold csv_dir. fold output_dir.
    rewrite !step_print, Hflag, step_print.
    rewrite (step_load _ _ _ _ _ _ _ Hload), step_ts. cbv zeta.
    fold latest_fpath.
    change (Path.join output_dir (base_name "station_names" ".pickle" _))
      with names_fpath.
    rewrite step_print, step_pd_to_pickle by (by rewrite Hp1).
    rewrite step_print, step_pd_to_pickle by (by rewrite Hp2).
    reflexivity. }
  exists (replay events w). split_and!.
  - exact Hrun.
  - unfold new_events. by rewrite trace_replay, drop_app_length.
  - unfold new_events. by rewrite trace_replay, drop_app_length.
  - intros Hkey. apply key_join_inj in Hkey;
      [|apply file_name_primary, run_ts_clock|done].
    apply (copy_name_same_file _ StationNamesPickle) in Hkey as [_ [=]].
    apply run_ts_clock.
  - by rewrite files_replay.
  - reflexivity.
Qed.

(** The theorem at a sample run in the working directory. *)
Lemma only_stations_pickle_writes_two_files_witness :
  ∃ w',
    main [OptOnlyStationsPickle; OptOutputDir "."] (Sample.env Sample.engine_ok)
      Sample.w0 = (Ok tt, w')
    ∧ writes (new_events Sample.w0 w')
      = [("./station_names_20240307_0905.pickle",
          Pickle (PySetMap Sample.stations));
         ("./station_names_latest.pickle",
          Pickle (PySetMap Sample.stations))].
Proof.
  destruct (only_stations_pickle_writes_two_files
              (Sample.env Sample.engine_ok) Sample.w0
              [OptOnlyStationsPickle; OptOutputDir "."]
              (mkConfig "data" "csvs") Sample.df Sample.stations)
    as (w' & Hrun & _ & Hwrites & _);
    [apply elem_of_cons; by left|reflexivity|reflexivity|reflexivity|].
  exists w'. split; [exact Hrun|exact Hwrites].
Defined.

(** ** C6: making the output directory *)

Section ensure_dir_facts.

(** [_ensure_dir] on a directory that exists raises nothing and changes
    neither the directories nor the files. *)
Lemma ensure_dir_existing path env w :
  path ≠ "" → dir_exists w (Path.key path) = true →
  _ensure_dir path env w = (Ok tt, log (EvMakedirs path) w).
Proof.
  intros Hp Hd. unfold _ensure_dir, os_makedirs_exist_ok, make_dirs.
  by rewrite bool_decide_false, Hd.
Qed.

(** [_ensure_dir] on a directory that does not exist makes it, with every
    directory above it, and leaves the other directories and the files. *)
Lemma ensure_dir_missing path env w :
  path ≠ "" → dir_exists w (Path.key path) = false →
  ∃ w', _ensure_dir path env w = (Ok tt, w')
        ∧ files w' = files w
        ∧ (∀ k, k ∈ dirs w' ↔ k ∈ Path.ancestors (Path.key path) ∨ k ∈ dirs w)
        ∧ dir_exists w' (Path.key path) = true.
Proof.
  intros Hp Hd. eexists. split_and!.
  - unfold _ensure_dir, os_makedirs_exist_ok. by rewrite bool_decide_false.
  - apply files_make_dirs.
  - intros k. unfold make_dirs. rewrite Hd. simpl.
    by rewrite elem_of_union, elem_of_list_to_set.
  - apply dir_exists_make_dirs.
Qed.

(** In [create_clean_data] the directory is made before anything is
    written. *)
Lemma create_clean_data_makes_dir_first
    env w bikefolder output_dir num_files datapaths
    write_parquet timestamp_output df m :
  env_load_clean_data env bikefolder num_files datapaths = Ok (df, m) →
  output_dir ≠ "" →
  ∃ w' paths evs,
    create_clean_data bikefolder output_dir num_files datapaths
      write_parquet timestamp_output env w = (Ok paths, w')
    ∧ new_events w w'
      = [EvPrint ("Loading raw trips from: " +:+ bikefolder);
         EvLoad bikefolder num_files datapaths;
         EvMakedirs output_dir] ++ evs
    ∧ dir_exists w' (Path.key output_dir) = true.
Proof.
  intros Hload Hout.
  exists (replay (run_events env bikefolder output_dir num_files datapaths
                    write_parquet timestamp_output df m) w).
  do 2 eexists. split_and!.
  - by apply create_clean_data_run.
  - rewrite new_events_replay. reflexivity.
  - unfold run_events. rewrite replay_app.
    set (w1 := replay [_; _; _] w).
    assert (dir_exists w1 (Path.key output_dir) = true) as Hd
      by apply dir_exists_make_dirs.
    set (evs := _ ++ _).
    assert (∀ p, EvMakedirs p ∉ evs) as Hevs.
    { intros p. subst evs. unfold primary_events, latest_events,
        primary_step, latest_step, parquet_step, write_step.
      repeat case_match; set_solver. }
    unfold dir_exists in *. by rewrite dirs_replay_no_makedirs.
Qed.

End ensure_dir_facts.

(** C6, on the code.  In the mode of [--only-stations-pickle], [main] does
    not make the output directory: when the directory does not exist, the
    first write is refused, [main] ends with that exception, and neither
    file nor directory has been made.  ([create_clean_data] makes the
    directory before its first write, see
    [create_clean_data_makes_dir_first].) *)
Theorem only_stations_pickle_does_not_make_dir env w argv cfg df m :
  OptOnlyStationsPickle ∈ argv →
  env_config env = Ok cfg →
  let args := parse_args argv in
  let csv_dir := resolved_csv_dir env cfg args in
  let output_dir := resolved_output_dir env cfg args in
  let names_fpath :=
    Path.join output_dir
      (primary_name (run_ts env (args_timestamp_output args))
         StationNamesPickle) in
  env_load_clean_data env csv_dir (args_num_files args) None = Ok (df, m) →
  dir_exists w (Path.key output_dir) = false →
  ∃ w',
    main argv env w = (Raise (no_such_directory names_fpath), w')
    ∧ new_events w w' = stations_only_prelude env cfg args
    ∧ files w' = files w
    ∧ dirs w' = dirs w
    ∧ dir_exists w' (Path.key output_dir) = false.
Proof.
  intros Hflag Hcfg args csv_dir output_dir names_fpath Hload Hdir.
  apply only_stations_pickle_given in Hflag.
  change (args_only_stations_pickle args = true) in Hflag.
  assert (Path.parent (Path.key names_fpath) = Path.key output_dir) as Hp1.
  { apply parent_key_join, file_name_primary, run_ts_clock. }
  exists (replay (stations_only_prelude env cfg args) w). split_and!.
  - unfold main, main_with. fold args.
    rewrite (step_load_config _ _ _ _ Hcfg), step_ask. cbv zeta.
    fold (data_root_dir env cfg). fold (default_csv_dir env cfg).
    fold (resolved_csv_dir env cfg args).
    fold (resolved_output_dir env cfg args).
    fold csv_dir. fold output_dir.
    rewrite !step_print, Hflag, step_print.
    rewrite (step_load _ _ _ _ _ _ _ Hload), step_ts. cbv zeta.
    change (Path.join output_dir (base_name "station_names" ".pickle" _))
      with names_fpath.
    rewrite step_print. unfold pd_to_pickle.
    rewrite step_write_refused by (by rewrite Hp1).
    reflexivity.
  - unfold new_events. by rewrite trace_replay, drop_app_length.
  - by rewrite files_replay.
  - reflexivity.
  - exact Hdir.
Qed.

(** The theorem at a sample run towards a directory that does not exist. *)
Lemma only_stations_pickle_does_not_make_dir_witness :
  ∃ w',
    main [OptOnlyStationsPickle; OptOutputDir "fresh"]
      (Sample.env Sample.engine_ok) Sample.w0
    = (Raise (no_such_directory "fresh/station_names_20240307_0905.pickle"),
       w')
    ∧ files w' = ∅
    ∧ dirs w' = ∅.
Proof.
  destruct (only_stations_pickle_does_not_make_dir
              (Sample.env Sample.engine_ok) Sample.w0
              [OptOnlyStationsPickle; OptOutputDir "fresh"]
              (mkConfig "data" "csvs") Sample.df Sample.stations)
    as (w' & Hrun & _ & Hfiles & Hdirs & _);
    [apply elem_of_cons; by left|reflexivity|reflexivity|reflexivity|].
  exists w'. split_and!; [exact Hrun|exact Hfiles|exact Hdirs].
Defined.

(** ** C7: the names of the first copies *)

Section timestamp_facts.

Lemma is_digit_digit_char n : is_digit (digit_char n) = true.
Proof.
  unfold is_digit. rewrite digit_char_code.
  assert (n mod 10 < 10)%N as Hlt by (by apply N.mod_upper_bound).
  revert Hlt. generalize (n mod 10)%N. intros r Hr.
  apply andb_true_iff. rewrite !N.leb_le. lia.
Qed.

Lemma digit_char_value n : (N_of_ascii (digit_char n) - 48 = n mod 10)%N.
Proof. rewrite digit_char_code. generalize (n mod 10)%N. lia. Qed.

Lemma two_digits n : (n < 100 → 10 * (n / 10 mod 10) + n mod 10 = n)%N.
Proof. intros. zify. Z.to_euclidean_division_equations. lia. Qed.

Lemma four_digits n :
  (n < 10000 →
   10 * (10 * (10 * (n / 1000 mod 10) + n / 100 mod 10) + n / 10 mod 10)
   + n mod 10 = n)%N.
Proof. intros. zify. Z.to_euclidean_division_equations. lia. Qed.

(** The timestamp of a valid date and time has the form [YYYYMMDD_HHMM]
    and writes that date and time, to the minute. *)
Lemma strftime_Ymd_HM_format d :
  valid_datetime d → is_Ymd_HM_of d (strftime_Ymd_HM d).
Proof.
  intros (Hy & Hm & Hd & Hh & Hmin).
  unfold is_Ymd_HM_of, strftime_Ymd_HM, pad4, pad2. split_and!.
  - reflexivity.
  - reflexivity.
  - simpl. by rewrite !is_digit_digit_char.
  - simpl. by rewrite !is_digit_digit_char.
  - simpl. unfold decimal. simpl decimal_go. rewrite !digit_char_value.
    rewrite N.mul_0_r, N.add_0_l. apply four_digits. lia.
  - simpl. unfold decimal. simpl decimal_go. rewrite !digit_char_value.
    rewrite N.mul_0_r, N.add_0_l. apply two_digits. lia.
  - simpl. unfold decimal. simpl decimal_go. rewrite !digit_char_value.
    rewrite N.mul_0_r, N.add_0_l. apply two_digits. lia.
  - simpl. unfold decimal. simpl decimal_go. rewrite !digit_char_value.
    rewrite N.mul_0_r, N.add_0_l. apply two_digits. lia.
  - simpl. unfold decimal. simpl decimal_go. rewrite !digit_char_value.
    rewrite N.mul_0_r, N.add_0_l. apply two_digits. lia.
Qed.

End timestamp_facts.

(** C7.  In [create_clean_data] the first copy of each artifact is named
    [<stem>_<ts><ext>] when timestamping is on and [<stem><ext>] when it is
    off, where [ts] is the time of the clock in the form [YYYYMMDD_HHMM].
    Every file the run writes has such a name or a stable name, in the
    output directory; and with timestamping off the run does not depend on
    the clock at all. *)
Theorem first_copies_are_named_after_the_clock
    env w bikefolder output_dir num_files datapaths
    (write_parquet timestamp_output : bool) df m :
  env_load_clean_data env bikefolder num_files datapaths = Ok (df, m) →
  output_dir ≠ "" →
  valid_datetime (env_now env) →
  let ts := strftime_Ymd_HM (env_now env) in
  let name (a : artifact) :=
    if timestamp_output
    then artifact_stem a +:+ "_" +:+ ts +:+ artifact_ext a
    else artifact_stem a +:+ artifact_ext a in
  is_Ymd_HM_of (env_now env) ts
  ∧ (∀ a, primary_path env output_dir timestamp_output a
          = Path.join output_dir (name a))
  ∧ (∃ w' paths,
       create_clean_data bikefolder output_dir num_files datapaths
         write_parquet timestamp_output env w = (Ok paths, w')
       ∧ (∀ a, a ≠ CleanedParquet →
            EvWrite (Path.join output_dir (name a)) (artifact_content df m a)
            ∈ new_events w w')
       ∧ (∀ p c, EvWrite p c ∈ new_events w w' →
            ∃ a, c = artifact_content df m a
                 ∧ (p = Path.join output_dir (name a)
                    ∨ p = Path.join output_dir (latest_name a))))
  ∧ (timestamp_output = false →
     ∀ now,
       create_clean_data bikefolder output_dir num_files datapaths
         write_parquet timestamp_output (with_now now env) w
       = create_clean_data bikefolder output_dir num_files datapaths
           write_parquet timestamp_output env w).
Proof.
  intros Hload Hout Hvalid ts name.
  assert (∀ a, primary_path env output_dir timestamp_output a
               = Path.join output_dir (name a)) as Hname.
  { intros a. unfold primary_path, primary_name, name, run_ts.
    destruct timestamp_output; [by rewrite base_name_strftime|done]. }
  split_and!.
  - by apply strftime_Ymd_HM_format.
  - exact Hname.
  - destruct (create_clean_data_outcome env w bikefolder output_dir num_files
                datapaths write_parquet timestamp_output df m Hload Hout)
      as (w' & Hrun & Hnew & Hfiles).
    exists w'. eexists. split_and!; [exact Hrun|..].
    + intros a Ha. rewrite Hnew, <- elem_of_writes, writes_run_events.
      apply elem_of_app. left. apply list_elem_of_fmap. exists a.
      split; [unfold primary_write; by rewrite Hname|].
      by apply not_parquet_written_primary.
    + intros p c. rewrite Hnew, <- elem_of_writes, writes_run_events.
      intros (l & a & -> & ->)%run_write_inv. exists a. split; [done|].
      destruct l; [by right|left]. apply Hname.
  - intros -> now.
    rewrite !create_clean_data_run with (df := df) (m := m) by done.
    reflexivity.
Qed.

(** The theorem at a sample run, on 7 March 2024 at 09:05. *)
Lemma first_copies_are_named_after_the_clock_witness :
  valid_datetime (mkDatetime 2024 3 7 9 5)
  ∧ is_Ymd_HM_of (mkDatetime 2024 3 7 9 5) "20240307_0905"
  ∧ ∀ a, primary_path (Sample.env Sample.engine_ok) "out" true a
         = Path.join "out"
             (artifact_stem a +:+ "_" +:+ "20240307_0905" +:+ artifact_ext a).
Proof.
  assert (valid_datetime (mkDatetime 2024 3 7 9 5)) as Hvalid.
  { unfold valid_datetime. simpl. lia. }
  split; [exact Hvalid|].
  destruct (first_copies_are_named_after_the_clock
              (Sample.env Sample.engine_ok) Sample.w0 "csvs" "out" None None
              true true Sample.df Sample.stations)
    as (Hformat & Hnames & _); [reflexivity|done|exact Hvalid|].
  split; [exact Hformat|exact Hnames].
Defined.

(** ** The runs of [main] *)

Section main_runs.
Context (env : Env) (w : World) (argv : list cli_option) (cfg : Config).
Hypothesis config_read : env_config env = Ok cfg.

Local Abbreviation args := (parse_args argv).
Local Abbreviation csv_dir := (resolved_csv_dir env cfg (parse_args argv)).
Local Abbreviation output_dir :=
  (resolved_output_dir env cfg (parse_args argv)).

Local Abbreviation greeting :=
  [EvPrint ("Using CSV dir: " +:+ csv_dir);
   EvPrint ("Using output dir: " +:+ output_dir)].

(** Without [--only-stations-pickle], [main] greets and hands over to
    [create_clean_data]. *)
Lemma main_full_pipeline_run :
  args_only_stations_pickle args = false →
  main argv env w
  = (create_clean_data csv_dir output_dir (args_num_files args) None
       (args_write_parquet args) (args_timestamp_output args);; mret tt)
      env (replay greeting w).
Proof.
  intros Hflag. unfold main, main_with.
  rewrite (step_load_config _ _ _ _ config_read), step_ask. cbv zeta.
  rewrite !step_print, Hflag. reflexivity.
Qed.

(** With it, [main] greets, says what it does and calls the loader. *)
Lemma main_stations_only_loader_raises e :
  args_only_stations_pickle args = true →
  env_load_clean_data env csv_dir (args_num_files args) None = Raise e →
  main argv env w
  = (Raise e,
     replay
       (greeting ++
        [EvPrint "Building only station names pickles (no cleaned data will be written)...";
         EvLoad csv_dir (args_num_files args) None]) w).
Proof.
  intros Hflag Hload. unfold main, main_with.
  rewrite (step_load_config _ _ _ _ config_read), step_ask. cbv zeta.
  rewrite !step_print, Hflag, step_print.
  by rewrite (step_load_raise _ _ _ _ _ _ _ Hload).
Qed.

End main_runs.

Lemma join_named a b : a ≠ "" → Path.join a b ≠ "".
Proof.
  intros Ha. unfold Path.join.
  destruct b as [|c b]; simpl.
  - rewrite bool_decide_false by done. simpl.
    destruct (Path.endswith_sep a); by destruct a.
  - case_bool_decide; [done|].
    rewrite bool_decide_false by done. simpl.
    destruct (Path.endswith_sep a); by destruct a.
Qed.

Lemma py_or_named a d : d ≠ "" → py_or a d ≠ "".
Proof. intros Hd. destruct a as [s|]; simpl; [by case_bool_decide|done]. Qed.

(** The output directory of [main] is never the empty path, the project
    root being an absolute path. *)
Lemma resolved_output_dir_named env cfg args :
  env_project_root env ≠ "" → resolved_output_dir env cfg args ≠ "".
Proof. intros Hroot. by apply py_or_named, join_named. Qed.

Section run_dirs.
Context (env : Env) (bikefolder output_dir : string)
  (num_files : option Z) (datapaths : option (list string))
  (write_parquet timestamp_output : bool) (df : DataFrame) (m : StationMap).

Lemma no_makedirs_after_header p :
  EvMakedirs p
  ∉ primary_events env output_dir write_parquet timestamp_output df m
    ++ latest_events env output_dir write_parquet timestamp_output df m.
Proof.
  unfold primary_events, latest_events, primary_step, latest_step,
    parquet_step, write_step.
  intros Hin. repeat case_match;
    repeat (apply elem_of_app in Hin as [Hin|Hin]);
    repeat (apply elem_of_cons in Hin as [Heq|Hin]; [discriminate Heq|]);
    by apply elem_of_nil in Hin.
Qed.

(** The only directories a run makes are those of [_ensure_dir]. *)
Lemma dirs_run_events w :
  dirs (replay (run_events env bikefolder output_dir num_files datapaths
                  write_parquet timestamp_output df m) w)
  = dirs (make_dirs output_dir w).
Proof.
  unfold run_events. rewrite replay_app.
  rewrite dirs_replay_no_makedirs by apply no_makedirs_after_header.
  simpl. unfold make_dirs, dir_exists. simpl. by case_bool_decide.
Qed.

Lemma dir_exists_run_events w :
  dir_exists (replay (run_events env bikefolder output_dir num_files datapaths
                        write_parquet timestamp_output df m) w)
    (Path.key output_dir) = true.
Proof.
  pose proof (dir_exists_make_dirs output_dir w) as Hd.
  unfold dir_exists in *. by rewrite dirs_run_events.
Qed.

End run_dirs.

Section stations_only_run.
Context (env : Env) (w : World) (args : Args) (cfg : Config)
  (df : DataFrame) (m : StationMap).
Hypothesis config_read : env_config env = Ok cfg.
Hypothesis flag_given : args_only_stations_pickle args = true.
Hypothesis loader_returns :
  env_load_clean_data env (resolved_csv_dir env cfg args)
    (args_num_files args) None = Ok (df, m).
Hypothesis dir_there :
  dir_exists w (Path.key (resolved_output_dir env cfg args)) = true.

Local Abbreviation output_dir := (resolved_output_dir env cfg args).
Local Abbreviation tso := (args_timestamp_output args).
Local Abbreviation names_fpath :=
  (primary_path env output_dir tso StationNamesPickle).
Local Abbreviation latest_fpath := (latest_path output_dir StationNamesPickle).

(** The run of the stations-only branch, statement by statement. *)
Lemma main_with_stations_only_run :
  main_with args env w
  = (Ok tt,
     replay
       (stations_only_prelude env cfg args
        ++ [EvWrite names_fpath (Pickle (PySetMap m));
            EvPrint (latest_label StationNamesPickle +:+ latest_fpath);
            EvWrite latest_fpath (Pickle (PySetMap m))]) w).
Proof.
  assert (Path.parent (Path.key names_fpath) = Path.key output_dir) as Hp1.
  { apply parent_key_join, file_name_primary, run_ts_clock. }
  assert (Path.parent (Path.key latest_fpath) = Path.key output_dir) as Hp2.
  { by apply parent_key_join. }
  unfold main_with.
  rewrite (step_load_config _ _ _ _ config_read), step_ask. cbv zeta.
  fold (data_root_dir env cfg). fold (default_csv_dir env cfg).
  fold (resolved_csv_dir env cfg args).
  fold (resolved_output_dir env cfg args).
  rewrite !step_print, flag_given, step_print.
  rewrite (step_load _ _ _ _ _ _ _ loader_returns), step_ts. cbv zeta.
  change (Path.join output_dir "station_names_latest.pickle")
    with latest_fpath.
  change (Path.join output_dir (base_name "station_names" ".pickle" _))
    with names_fpath.
  rewrite step_print, step_pd_to_pickle by (by rewrite Hp1).
  rewrite step_print, step_pd_to_pickle by (by rewrite Hp2).
  reflexivity.
Qed.

End stations_only_run.

(** ** C10: an empty directory option *)

Section directories_used.

(** What [--csv-dir] and [--output-dir] leave in the namespace: the value
    given last. *)
Lemma args_csv_dir_last argv :
  args_csv_dir (parse_args argv) = last (csv_dir_values argv).
Proof.
  induction argv as [|o argv IH] using rev_ind; [done|].
  rewrite parse_args_snoc. unfold csv_dir_values in *. rewrite omap_app.
  destruct o; simpl; by rewrite ?app_nil_r, ?last_snoc.
Qed.

Lemma args_output_dir_last argv :
  args_output_dir (parse_args argv) = last (output_dir_values argv).
Proof.
  induction argv as [|o argv IH] using rev_ind; [done|].
  rewrite parse_args_snoc. unfold output_dir_values in *. rewrite omap_app.
  destruct o; simpl; by rewrite ?app_nil_r, ?last_snoc.
Qed.

(** [create_clean_data] calls the loader once, before its first write. *)
Lemma no_load_after_header
    env output_dir write_parquet timestamp_output df m b n d :
  EvLoad b n d
  ∉ primary_events env output_dir write_parquet timestamp_output df m
    ++ latest_events env output_dir write_parquet timestamp_output df m.
Proof.
  unfold primary_events, latest_events, primary_step, latest_step,
    parquet_step, write_step.
  intros Hin. repeat case_match;
    repeat (apply elem_of_app in Hin as [Hin|Hin]);
    repeat (apply elem_of_cons in Hin as [Heq|Hin]; [discriminate Heq|]);
    by apply elem_of_nil in Hin.
Qed.

(** In either mode, a run of [main] that goes through prints the two
    directories it uses, calls the loader on the first and on nothing else,
    and writes into the second and nowhere else. *)
Lemma main_uses_its_directories env w argv cfg df m :
  env_config env = Ok cfg →
  env_project_root env ≠ "" →
  let args := parse_args argv in
  let csv_dir := resolved_csv_dir env cfg args in
  let output_dir := resolved_output_dir env cfg args in
  env_load_clean_data env csv_dir (args_num_files args) None = Ok (df, m) →
  (args_only_stations_pickle args = true →
   dir_exists w (Path.key output_dir) = true) →
  ∃ rest,
    main argv env w
    = (Ok tt,
       replay (EvPrint ("Using CSV dir: " +:+ csv_dir)
               :: EvPrint ("Using output dir: " +:+ output_dir) :: rest) w)
    ∧ EvLoad csv_dir (args_num_files args) None ∈ rest
    ∧ (∀ b n d, EvLoad b n d ∈ rest → b = csv_dir)
    ∧ writes rest ≠ []
    ∧ (∀ p c, (p, c) ∈ writes rest →
         Path.parent (Path.key p) = Path.key output_dir)
    ∧ (∀ p, EvMakedirs p ∈ rest → p = output_dir)
    ∧ (args_only_stations_pickle args = false →
       EvMakedirs output_dir ∈ rest
       ∧ dir_exists
           (replay (EvPrint ("Using CSV dir: " +:+ csv_dir)
                    :: EvPrint ("Using output dir: " +:+ output_dir) :: rest)
              w)
           (Path.key output_dir) = true).
Proof.
  intros Hcfg Hroot args csv_dir output_dir Hload Hdir.
  set (tso := args_timestamp_output args).
  destruct (args_only_stations_pickle args) eqn:Hflag.
  - (* the stations-only branch *)
    set (names_fpath := primary_path env output_dir tso StationNamesPickle).
    set (latest_fpath := latest_path output_dir StationNamesPickle).
    exists [EvPrint "Building only station names pickles (no cleaned data will be written)...";
            EvLoad csv_dir (args_num_files args) None;
            EvPrint (primary_label StationNamesPickle +:+ names_fpath);
            EvWrite names_fpath (Pickle (PySetMap m));
            EvPrint (latest_label StationNamesPickle +:+ latest_fpath);
            EvWrite latest_fpath (Pickle (PySetMap m))].
    split_and!.
    + unfold main. fold args.
      by rewrite (main_with_stations_only_run env w args cfg df m
                    Hcfg Hflag Hload (Hdir eq_refl)).
    + apply elem_of_cons. right. apply elem_of_cons. by left.
    + intros b n d Hin.
      repeat (apply elem_of_cons in Hin as [Heq|Hin];
              [by simplify_eq|]).
      by apply elem_of_nil in Hin.
    + done.
    + intros p c Hin.
      change (writes _) with [(names_fpath, Pickle (PySetMap m));
                              (latest_fpath, Pickle (PySetMap m))] in Hin.
      apply elem_of_cons in Hin as [[= -> _]|Hin];
        [|apply list_elem_of_singleton in Hin as [= -> _]].
      * apply parent_key_join, file_name_primary, run_ts_clock.
      * by apply parent_key_join.
    + intros p Hin.
      repeat (apply elem_of_cons in Hin as [Heq|Hin]; [discriminate Heq|]).
      by apply elem_of_nil in Hin.
    + done.
  - (* the full pipeline *)
    assert (output_dir ≠ "") as Hout by (by apply resolved_output_dir_named).
    set (w1 := replay [EvPrint ("Using CSV dir: " +:+ csv_dir);
                       EvPrint ("Using output dir: " +:+ output_dir)] w).
    exists (run_events env csv_dir output_dir (args_num_files args) None
              (args_write_parquet args) tso df m).
    change (replay (?e1 :: ?e2 :: ?rest) w)
      with (replay rest (replay [e1; e2] w)). fold w1.
    split_and!.
    + rewrite (main_full_pipeline_run env w argv cfg Hcfg Hflag).
      unfold mbind, M_bind, bind.
      by rewrite (create_clean_data_run env _ csv_dir output_dir
                    (args_num_files args) None (args_write_parquet args) tso
                    df m Hload Hout).
    + unfold run_events. apply elem_of_app. left.
      apply elem_of_cons. right. apply elem_of_cons. by left.
    + intros b n d Hin. unfold run_events in Hin.
      apply elem_of_app in Hin as [Hin|Hin].
      * repeat (apply elem_of_cons in Hin as [Heq|Hin];
                [by simplify_eq|]).
        by apply elem_of_nil in Hin.
      * by apply no_load_after_header in Hin.
    + rewrite writes_run_events. done.
    + intros p c Hin. rewrite writes_run_events in Hin.
      apply run_write_inv in Hin as (l & a & -> & _).
      apply parent_key_join, file_name_copy.
    + intros p Hin. unfold run_events in Hin.
      apply elem_of_app in Hin as [Hin|Hin].
      * repeat (apply elem_of_cons in Hin as [Heq|Hin];
                [by simplify_eq|]).
        by apply elem_of_nil in Hin.
      * by apply no_makedirs_after_header in Hin.
    + intros _. split.
      * unfold run_events. apply elem_of_app. left.
        do 2 (apply elem_of_cons; right). apply elem_of_cons. by left.
      * apply dir_exists_run_events.
Qed.

End directories_used.

(** C10.  A run of [main] that goes through, in either mode.  When the value
    given last to [--csv-dir] is the empty string, the directory [main]
    announces and hands to the loader is
    [<project root>/<data.root_dir>/<data.relative_paths.csvs_dir>] of the
    configuration, and the loader is called on nothing else.  When the value
    given last to [--output-dir] is the empty string, the directory [main]
    announces is [<project root>/<data.root_dir>], every file of the run is
    written there, and the full pipeline makes that directory and no other.
    A non-empty value is the directory used.  Altogether [main] runs as on
    the namespace in which the empty strings are absent. *)
Theorem empty_dir_option_falls_back_to_default env w argv cfg df m :
  env_config env = Ok cfg →
  env_project_root env ≠ "" →
  let root := Path.join (env_project_root env) (cfg_root_dir cfg) in
  let csvs := Path.join root (cfg_csvs_dir cfg) in
  let args := parse_args argv in
  let num_files := args_num_files args in
  env_load_clean_data env (resolved_csv_dir env cfg args) num_files None
  = Ok (df, m) →
  (OptOnlyStationsPickle ∈ argv →
   dir_exists w (Path.key (resolved_output_dir env cfg args)) = true) →
  ∃ w',
    main argv env w = (Ok tt, w')
    ∧ (last (csv_dir_values argv) = Some "" →
       head (new_events w w') = Some (EvPrint ("Using CSV dir: " +:+ csvs))
       ∧ EvLoad csvs num_files None ∈ new_events w w'
       ∧ ∀ b n d, EvLoad b n d ∈ new_events w w' → b = csvs)
    ∧ (last (output_dir_values argv) = Some "" →
       EvPrint ("Using output dir: " +:+ root) ∈ new_events w w'
       ∧ writes (new_events w w') ≠ []
       ∧ (∀ p c, (p, c) ∈ writes (new_events w w') →
            Path.parent (Path.key p) = Path.key root)
       ∧ (∀ p, EvMakedirs p ∈ new_events w w' → p = root)
       ∧ (OptOnlyStationsPickle ∉ argv →
          EvMakedirs root ∈ new_events w w'
          ∧ dir_exists w' (Path.key root) = true))
    ∧ (∀ s, s ≠ "" → last (csv_dir_values argv) = Some s →
         EvLoad s num_files None ∈ new_events w w'
         ∧ ∀ b n d, EvLoad b n d ∈ new_events w w' → b = s)
    ∧ (∀ s, s ≠ "" → last (output_dir_values argv) = Some s →
         EvPrint ("Using output dir: " +:+ s) ∈ new_events w w'
         ∧ ∀ p c, (p, c) ∈ writes (new_events w w') →
             Path.parent (Path.key p) = Path.key s)
    ∧ main argv env w = main_with (drop_empty_dirs args) env w.
Proof.
  intros Hcfg Hroot root csvs args num_files Hload Hdir.
  destruct (main_uses_its_directories env w argv cfg df m Hcfg Hroot Hload)
    as (rest & Hrun & Hcall & Hcalls & Hsome & Hparent & Hmade & Hmakes).
  { intros Hflag. by apply Hdir, only_stations_pickle_given. }
  fold args in Hrun, Hcall, Hcalls, Hparent, Hmade, Hmakes.
  set (csv_dir := resolved_csv_dir env cfg args) in *.
  set (output_dir := resolved_output_dir env cfg args) in *.
  set (events := EvPrint ("Using CSV dir: " +:+ csv_dir)
                 :: EvPrint ("Using output dir: " +:+ output_dir) :: rest)
    in *.
  assert (writes events = writes rest) as Hwrites by reflexivity.
  assert (∀ b n d, EvLoad b n d ∈ events → b = csv_dir) as Hcalls'.
  { intros b n d Hin.
    do 2 (apply elem_of_cons in Hin as [Heq|Hin]; [discriminate Heq|]).
    by apply (Hcalls b n d). }
  assert (∀ p, EvMakedirs p ∈ events → p = output_dir) as Hmade'.
  { intros p Hin.
    do 2 (apply elem_of_cons in Hin as [Heq|Hin]; [discriminate Heq|]).
    by apply Hmade. }
  assert (EvLoad csv_dir num_files None ∈ events) as Hcall'.
  { by do 2 (apply elem_of_cons; right). }
  assert (EvPrint ("Using output dir: " +:+ output_dir) ∈ events) as Hsays.
  { apply elem_of_cons. right. apply elem_of_cons. by left. }
  exists (replay events w). rewrite new_events_replay, Hwrites.
  split_and!.
  - exact Hrun.
  - intros Hlast.
    assert (csv_dir = csvs) as <-.
    { unfold csv_dir, resolved_csv_dir, args.
      by rewrite args_csv_dir_last, Hlast. }
    done.
  - intros Hlast.
    assert (output_dir = root) as <-.
    { unfold output_dir, resolved_output_dir, args.
      by rewrite args_output_dir_last, Hlast. }
    split_and!; [done..|].
    intros Hflag. destruct Hmakes as [Hin Hthere].
    { destruct (args_only_stations_pickle args) eqn:Hf; [|done].
      by apply only_stations_pickle_given in Hf. }
    split; [|exact Hthere].
    by do 2 (apply elem_of_cons; right).
  - intros s Hs Hlast.
    assert (csv_dir = s) as <-.
    { unfold csv_dir, resolved_csv_dir, args.
      rewrite args_csv_dir_last, Hlast. simpl. by case_bool_decide. }
    done.
  - intros s Hs Hlast.
    assert (output_dir = s) as <-.
    { unfold output_dir, resolved_output_dir, args.
      rewrite args_output_dir_last, Hlast. simpl. by case_bool_decide. }
    done.
  - unfold main, args. generalize (parse_args argv).
    by intros [[[|c csv]|] [[|c' out]|] nf wp tso only].
Qed.

(** The theorem at a command line that gives both directories as the empty
    string, the first after a directory of its own. *)
Lemma empty_dir_option_falls_back_to_default_witness :
  ∃ w',
    main [OptCsvDir "raw"; OptCsvDir ""; OptOutputDir ""]
      (Sample.env Sample.engine_ok) Sample.w0 = (Ok tt, w')
    ∧ EvLoad "/repo/data/csvs" None None ∈ new_events Sample.w0 w'
    ∧ EvMakedirs "/repo/data" ∈ new_events Sample.w0 w'
    ∧ (∀ p c, (p, c) ∈ writes (new_events Sample.w0 w') →
         Path.parent (Path.key p) = Path.key "/repo/data").
Proof.
  destruct (empty_dir_option_falls_back_to_default
              (Sample.env Sample.engine_ok) Sample.w0
              [OptCsvDir "raw"; OptCsvDir ""; OptOutputDir ""]
              (mkConfig "data" "csvs") Sample.df Sample.stations)
    as (w' & Hrun & Hcsv & Hout & _); [reflexivity|done|reflexivity| |].
  { intros Hflag. exfalso. revert Hflag.
    apply (bool_decide_unpack _). by vm_compute. }
  destruct (Hcsv eq_refl) as (_ & Hcall & _).
  destruct (Hout eq_refl) as (_ & _ & Hparent & _ & Hmakes).
  destruct Hmakes as [Hmade _].
  { apply (bool_decide_unpack _). by vm_compute. }
  exists w'. split_and!; [exact Hrun|exact Hcall|exact Hmade|exact Hparent].
Defined.

(** ** What stops a run *)

Section fatal_errors.

(** An exception of the loader goes through [create_clean_data], which has
    written nothing by then. *)
Lemma create_clean_data_loader_raises
    env w bikefolder output_dir num_files datapaths
    write_parquet timestamp_output e :
  env_load_clean_data env bikefolder num_files datapaths = Raise e →
  create_clean_data bikefolder output_dir num_files datapaths
    write_parquet timestamp_output env w
  = (Raise e,
     replay [EvPrint ("Loading raw trips from: " +:+ bikefolder);
             EvLoad bikefolder num_files datapaths] w).
Proof.
  intros Hload. unfold create_clean_data.
  by rewrite step_print, (step_load_raise _ _ _ _ _ _ _ Hload).
Qed.

(** The empty string is no output directory: [os.makedirs] refuses it. *)
Lemma create_clean_data_unnamed_dir
    env w bikefolder num_files datapaths write_parquet timestamp_output df m :
  env_load_clean_data env bikefolder num_files datapaths = Ok (df, m) →
  ∃ e w',
    create_clean_data bikefolder "" num_files datapaths
      write_parquet timestamp_output env w = (Raise e, w')
    ∧ files w' = files w.
Proof.
  intros Hload. unfold create_clean_data.
  rewrite step_print, (step_load _ _ _ _ _ _ _ Hload).
  by do 2 eexists.
Qed.

End fatal_errors.

(** * Further properties *)

(** ** Errors that end a run *)

(** X2.  An exception of the loader goes through [create_clean_data]
    unchanged: the run ends with it right after the call, before the output
    directory is made and before anything is written. *)
Theorem loader_exception_ends_create_clean_data
    env w bikefolder output_dir num_files datapaths
    write_parquet timestamp_output e :
  env_load_clean_data env bikefolder num_files datapaths = Raise e →
  ∃ w',
    create_clean_data bikefolder output_dir num_files datapaths
      write_parquet timestamp_output env w = (Raise e, w')
    ∧ new_events w w'
      = [EvPrint ("Loading raw trips from: " +:+ bikefolder);
         EvLoad bikefolder num_files datapaths]
    ∧ files w' = files w
    ∧ dirs w' = dirs w.
Proof.
  intros Hload. eexists. split_and!.
  - by apply create_clean_data_loader_raises.
  - apply new_events_replay.
  - reflexivity.
  - reflexivity.
Qed.

(** The theorem at a loader that finds no CSV file. *)
Lemma loader_exception_ends_create_clean_data_witness :
  ∃ w',
    create_clean_data "csvs" "out" None None true true
      (mkEnv (mkDatetime 2024 3 7 9 5)
         (λ _ _ _, Raise (Exception "ValueError" "No objects to concatenate"))
         Sample.engine_ok "/repo" (Ok (mkConfig "data" "csvs")))
      Sample.w0
    = (Raise (Exception "ValueError" "No objects to concatenate"), w')
    ∧ files w' = ∅ ∧ dirs w' = ∅.
Proof.
  destruct (loader_exception_ends_create_clean_data
              (mkEnv (mkDatetime 2024 3 7 9 5)
                 (λ _ _ _, Raise (Exception "ValueError"
                                    "No objects to concatenate"))
                 Sample.engine_ok "/repo" (Ok (mkConfig "data" "csvs")))
              Sample.w0 "csvs" "out" None None true true
              (Exception "ValueError" "No objects to concatenate"))
    as (w' & Hrun & _ & Hfiles & Hdirs); [reflexivity|].
  exists w'. split_and!; [exact Hrun|exact Hfiles|exact Hdirs].
Defined.

(** ** The whole pipeline from the command line *)

(** X3.  Without [--only-stations-pickle], with a readable configuration, a
    project root that is not the empty path and a loader that returns,
    [main] goes through: it prints the two directories it uses, then runs
    [create_clean_data] on them with the file cap and the two toggles of the
    command line and no explicit list of paths.  The output directory is
    never the empty path, it exists afterwards, and every artifact but the
    parquet one is on disk under both its names. *)
Theorem main_runs_the_full_pipeline env w argv cfg df m :
  OptOnlyStationsPickle ∉ argv →
  env_config env = Ok cfg →
  env_project_root env ≠ "" →
  let args := parse_args argv in
  let csv_dir := resolved_csv_dir env cfg args in
  let output_dir := resolved_output_dir env cfg args in
  let tso := args_timestamp_output args in
  env_load_clean_data env csv_dir (args_num_files args) None = Ok (df, m) →
  ∃ w',
    main argv env w = (Ok tt, w')
    ∧ new_events w w'
      = [EvPrint ("Using CSV dir: " +:+ csv_dir);
         EvPrint ("Using output dir: " +:+ output_dir)]
        ++ run_events env csv_dir output_dir (args_num_files args) None
             (args_write_parquet args) tso df m
    ∧ output_dir ≠ ""
    ∧ dir_exists w' (Path.key output_dir) = true
    ∧ (∀ a, a ≠ CleanedParquet →
         files w' !! Path.key (primary_path env output_dir tso a)
         = Some (artifact_content df m a)
         ∧ files w' !! Path.key (latest_path output_dir a)
           = Some (artifact_content df m a)).
Proof.
  intros Hflag Hcfg Hroot args csv_dir output_dir tso Hload.
  assert (args_only_stations_pickle args = false) as Hflag'.
  { destruct (args_only_stations_pickle args) eqn:Hf; [|done].
    by apply only_stations_pickle_given in Hf. }
  assert (output_dir ≠ "") as Hout by (by apply resolved_output_dir_named).
  set (greeting := [EvPrint ("Using CSV dir: " +:+ csv_dir);
                    EvPrint ("Using output dir: " +:+ output_dir)]).
  set (events := run_events env csv_dir output_dir (args_num_files args) None
                   (args_write_parquet args) tso df m).
  exists (replay events (replay greeting w)). split_and!.
  - rewrite (main_full_pipeline_run env w argv cfg Hcfg Hflag').
    unfold mbind, M_bind, bind.
    by rewrite (create_clean_data_run env _ csv_dir output_dir
                  (args_num_files args) None (args_write_parquet args) tso
                  df m Hload Hout).
  - rewrite <- replay_app. apply new_events_replay.
  - exact Hout.
  - apply dir_exists_run_events.
  - intros a Ha. rewrite files_replay. split.
    + apply primary_copy_on_disk; [done..|].
      by apply not_parquet_written_primary.
    + apply latest_copy_on_disk; [done..|].
      by apply not_parquet_written_latest.
Qed.

(** The theorem at a sample command line. *)
Lemma main_runs_the_full_pipeline_witness :
  ∃ w',
    main [OptNoParquet; OptNumFiles 2] (Sample.env Sample.engine_ok) Sample.w0
    = (Ok tt, w')
    ∧ dir_exists w' (Path.key "/repo/data") = true
    ∧ files w' !! Path.key "/repo/data/cleaned_data_latest.pickle"
      = Some (Pickle (PyDataFrame Sample.df)).
Proof.
  destruct (main_runs_the_full_pipeline
              (Sample.env Sample.engine_ok) Sample.w0
              [OptNoParquet; OptNumFiles 2]
              (mkConfig "data" "csvs") Sample.df Sample.stations)
    as (w' & Hrun & _ & _ & Hdir & Hfiles);
    [apply (bool_decide_unpack _); by vm_compute
    |reflexivity|done|reflexivity|].
  exists w'. split_and!; [exact Hrun|exact Hdir|].
  by destruct (Hfiles CleanedPickle) as [_ Hlatest].
Defined.

(** X4.  [main] ends with the exception of whatever fails first, in either
    mode: with that of the configuration file, before anything is printed
    and before the loader is called; or, the configuration being read, with
    that of the loader.  In both cases no file has been written and no
    directory made. *)
Theorem main_ends_with_the_first_exception env w argv e :
  env_config env = Raise e
  ∨ (∃ cfg, env_config env = Ok cfg
            ∧ env_load_clean_data env
                (resolved_csv_dir env cfg (parse_args argv))
                (args_num_files (parse_args argv)) None = Raise e) →
  ∃ w',
    main argv env w = (Raise e, w')
    ∧ files w' = files w
    ∧ dirs w' = dirs w
    ∧ (∀ p c, EvWrite p c ∉ new_events w w')
    ∧ (env_config env = Raise e → w' = w).
Proof.
  intros [Hcfg|(cfg & Hcfg & Hload)].
  - exists w. split_and!; try done.
    + unfold main, main_with, mbind, M_bind, bind, load_config.
      by rewrite Hcfg.
    + intros p c. unfold new_events. rewrite drop_all. apply not_elem_of_nil.
  - destruct (args_only_stations_pickle (parse_args argv)) eqn:Hflag.
    + eexists. split_and!.
      * by apply (main_stations_only_loader_raises env w argv cfg).
      * reflexivity.
      * reflexivity.
      * intros p c. rewrite new_events_replay. simpl. intros Hin.
        repeat (apply elem_of_cons in Hin as [Heq|Hin]; [discriminate Heq|]).
        by apply elem_of_nil in Hin.
      * intros Hcfg'. congruence.
    + eexists. split_and!.
      * rewrite (main_full_pipeline_run env w argv cfg Hcfg Hflag).
        unfold mbind, M_bind, bind.
        by rewrite (create_clean_data_loader_raises _ _ _ _ _ _ _ _ _ Hload).
      * reflexivity.
      * reflexivity.
      * intros p c. rewrite <- replay_app, new_events_replay. simpl.
        intros Hin.
        repeat (apply elem_of_cons in Hin as [Heq|Hin]; [discriminate Heq|]).
        by apply elem_of_nil in Hin.
      * intros Hcfg'. congruence.
Qed.

(** The theorem at a run without configuration file. *)
Lemma main_ends_with_the_first_exception_witness :
  main [OptNoTimestamp]
    (mkEnv (mkDatetime 2024 3 7 9 5) (λ _ _ _, Ok (Sample.df, Sample.stations))
       Sample.engine_ok "/repo"
       (Raise (Exception "FileNotFoundError" "config.yaml")))
    Sample.w0
  = (Raise (Exception "FileNotFoundError" "config.yaml"), Sample.w0).
Proof.
  destruct (main_ends_with_the_first_exception
              (mkEnv (mkDatetime 2024 3 7 9 5)
                 (λ _ _ _, Ok (Sample.df, Sample.stations))
                 Sample.engine_ok "/repo"
                 (Raise (Exception "FileNotFoundError" "config.yaml")))
              Sample.w0 [OptNoTimestamp]
              (Exception "FileNotFoundError" "config.yaml"))
    as (w' & Hrun & _ & _ & _ & Hw); [left; reflexivity|].
  rewrite Hrun. by rewrite Hw.
Defined.

(** ** The parquet copies *)

(** X5.  With [write_parquet] off, [create_clean_data] returns [None] as
    the parquet path, writes no parquet file, and never consults the parquet
    engine: the run is the same with any engine. *)
Theorem without_parquet_the_engine_is_not_consulted
    env w bikefolder output_dir num_files datapaths timestamp_output df m :
  env_load_clean_data env bikefolder num_files datapaths = Ok (df, m) →
  output_dir ≠ "" →
  ∃ w',
    create_clean_data bikefolder output_dir num_files datapaths
      false timestamp_output env w
    = (Ok (primary_path env output_dir timestamp_output CleanedPickle,
           None,
           primary_path env output_dir timestamp_output StationMapJson), w')
    ∧ (∀ p df', EvWrite p (Parquet df') ∉ new_events w w')
    ∧ writes (new_events w w')
      = map (primary_write env output_dir timestamp_output df m)
          [CleanedPickle; StationMapJson; StationMapPickle; StationNamesPickle]
        ++ map (latest_write output_dir df m)
             [CleanedPickle; StationMapJson; StationMapPickle;
              StationNamesPickle]
    ∧ (∀ engine,
         create_clean_data bikefolder output_dir num_files datapaths
           false timestamp_output (with_parquet_error engine env) w
         = create_clean_data bikefolder output_dir num_files datapaths
             false timestamp_output env w).
Proof.
  intros Hload Hout.
  eexists. split_and!.
  - by rewrite create_clean_data_run with (df := df) (m := m).
  - intros p df'. rewrite new_events_replay, <- elem_of_writes.
    rewrite writes_run_events. simpl.
    unfold primary_write, latest_write, artifact_content. intros Hin.
    repeat (apply elem_of_cons in Hin as [Heq|Hin]; [discriminate Heq|]).
    by apply elem_of_nil in Hin.
  - by rewrite new_events_replay, writes_run_events.
  - intros engine.
    by rewrite !create_clean_data_run with (df := df) (m := m).
Qed.

(** The theorem at a sample run, with an engine that would refuse. *)
Lemma without_parquet_the_engine_is_not_consulted_witness :
  create_clean_data "csvs" "out" None None false true
    (with_parquet_error Sample.no_engine (Sample.env Sample.engine_ok))
    Sample.w0
  = create_clean_data "csvs" "out" None None false true
      (Sample.env Sample.engine_ok) Sample.w0.
Proof.
  destruct (without_parquet_the_engine_is_not_consulted
              (Sample.env Sample.engine_ok) Sample.w0 "csvs" "out" None None
              true Sample.df Sample.stations)
    as (w' & _ & _ & _ & Hengine); [reflexivity|done|].
  exact (Hengine Sample.no_engine).
Defined.

(** X6.  With [write_parquet] on and a first parquet write that goes
    through, [create_clean_data] returns the path of that file, which holds
    the table when the run ends.  The stable parquet copy is then attempted:
    when it goes through it holds the table too; when it raises, the
    exception is logged with its message, the returned paths are the same,
    and the stable copies of the other artifacts are written all the same.
    (What a failed write leaves at the stable parquet path is not said.) *)
Theorem parquet_copy_written_and_returned
    env w bikefolder output_dir num_files datapaths timestamp_output df m :
  env_load_clean_data env bikefolder num_files datapaths = Ok (df, m) →
  output_dir ≠ "" →
  primary_parquet_error env output_dir timestamp_output df = None →
  let parquet_fpath :=
    primary_path env output_dir timestamp_output CleanedParquet in
  let latest_parquet := latest_path output_dir CleanedParquet in
  ∃ w',
    create_clean_data bikefolder output_dir num_files datapaths
      true timestamp_output env w
    = (Ok (primary_path env output_dir timestamp_output CleanedPickle,
           Some parquet_fpath,
           primary_path env output_dir timestamp_output StationMapJson), w')
    ∧ files w' !! Path.key parquet_fpath = Some (Parquet df)
    ∧ EvPrint ("Writing latest parquet: " +:+ latest_parquet)
      ∈ new_events w w'
    ∧ (latest_parquet_error env output_dir df = None →
       files w' !! Path.key latest_parquet = Some (Parquet df))
    ∧ (∀ e, latest_parquet_error env output_dir df = Some e →
         EvPrint (latest_failure +:+ str_exn e) ∈ new_events w w'
         ∧ ∀ a, a ≠ CleanedParquet →
             files w' !! Path.key (latest_path output_dir a)
             = Some (artifact_content df m a)).
Proof.
  intros Hload Hout Herr parquet_fpath latest_parquet.
  eexists. split_and!.
  - rewrite create_clean_data_run with (df := df) (m := m) by done.
    unfold returned_parquet. by rewrite Herr.
  - rewrite files_replay. apply primary_copy_on_disk; [done..|].
    unfold written_primary. rewrite Herr. set_solver.
  - rewrite new_events_replay. unfold run_events, latest_events.
    rewrite Herr. simpl andb. cbv iota. unfold parquet_step, write_step.
    case_match; set_solver.
  - intros Herr'. rewrite files_replay.
    apply latest_copy_on_disk; [done..|].
    unfold written_latest. rewrite Herr, Herr'. set_solver.
  - intros e Herr'. split.
    + rewrite new_events_replay. unfold run_events.
      rewrite !elem_of_app. right. right.
      apply latest_failure_logged; [|done].
      unfold written_primary. rewrite Herr. set_solver.
    + intros a Ha. rewrite files_replay.
      apply latest_copy_on_disk; [done..|].
      by apply not_parquet_written_latest.
Qed.

(** The theorem at a sample run in which the stable parquet file cannot be
    opened for writing. *)
Lemma parquet_copy_written_and_returned_witness :
  let refusal :=
    Exception "PermissionError"
      "[Errno 13] Permission denied: 'out/cleaned_data_latest.parquet'" in
  let engine : DataFrame → string → option exn :=
    λ _ path, if bool_decide (path = "out/cleaned_data_latest.parquet")
              then Some refusal else None in
  ∃ w',
    create_clean_data "csvs" "out" None None true false
      (Sample.env engine) Sample.w0
    = (Ok ("out/cleaned_data.pickle", Some "out/cleaned_data.parquet",
           "out/station_id_to_names.json"), w')
    ∧ files w' !! Path.key "out/cleaned_data.parquet"
      = Some (Parquet Sample.df)
    ∧ EvPrint (latest_failure +:+ str_exn refusal)
      ∈ new_events Sample.w0 w'
    ∧ files w' !! Path.key "out/station_names_latest.pickle"
      = Some (Pickle (PySetMap Sample.stations)).
Proof.
  intros refusal engine.
  destruct (parquet_copy_written_and_returned
              (Sample.env engine) Sample.w0 "csvs" "out" None None
              false Sample.df Sample.stations)
    as (w' & Hrun & Hfile & _ & _ & Hfail); [reflexivity|done|reflexivity|].
  destruct (Hfail refusal) as [Hlog Hrest]; [reflexivity|].
  exists w'. split_and!; [exact Hrun|exact Hfile|exact Hlog|].
  by apply (Hrest StationNamesPickle).
Defined.

(** ** What a run leaves alone, and running again *)

Section files_after_more.




End files_after_more.





(** ** Timestamps keep the runs apart *)

Section timestamps_apart.

(** Two valid times with the same timestamp are the same minute. *)
Lemma strftime_Ymd_HM_inj d1 d2 :
  valid_datetime d1 → valid_datetime d2 →
  strftime_Ymd_HM d1 = strftime_Ymd_HM d2 → d1 = d2.
Proof.
  intros H1%strftime_Ymd_HM_format H2%strftime_Ymd_HM_format Heq.
  rewrite <- Heq in H2.
  destruct H1 as (_ & _ & _ & _ & Hy1 & Hm1 & Hd1 & Hh1 & Hn1).
  destruct H2 as (_ & _ & _ & _ & Hy2 & Hm2 & Hd2 & Hh2 & Hn2).
  destruct d1, d2. simpl in *. congruence.
Qed.

Lemma timestamp_of_first_name d a :
  substring (String.length (artifact_stem a) + 1) 13
    (primary_name (Some (strftime_Ymd_HM d)) a)
  = strftime_Ymd_HM d.
Proof. unfold primary_name. rewrite base_name_strftime. by destruct a. Qed.

(** The name of a first copy tells the artifact and the minute. *)
Lemma primary_name_inj d1 d2 a1 a2 :
  valid_datetime d1 → valid_datetime d2 →
  primary_name (Some (strftime_Ymd_HM d1)) a1
  = primary_name (Some (strftime_Ymd_HM d2)) a2 →
  a1 = a2 ∧ d1 = d2.
Proof.
  intros Hd1 Hd2 Heq.
  assert (a1 = a2) as ->.
  { revert Heq. unfold primary_name. rewrite !base_name_strftime.
    destruct a1, a2; try reflexivity; intros Heq; exfalso;
      cbv [artifact_stem artifact_ext String.append strftime_Ymd_HM
           pad4 pad2] in Heq;
      discriminate Heq. }
  split; [done|]. apply strftime_Ymd_HM_inj; [done..|].
  by rewrite <- (timestamp_of_first_name d1 a2), Heq,
    timestamp_of_first_name.
Qed.

(** The name of a first copy with a timestamp is no stable name. *)
Lemma primary_name_not_latest d a1 a2 :
  primary_name (Some (strftime_Ymd_HM d)) a1 ≠ latest_name a2.
Proof.
  intros Heq.
  assert (clock_ts (Some (strftime_Ymd_HM d))) as Hts by (right; by eexists).
  pose proof (copy_name_artifact _ false a1 true a2 Hts Heq) as ->.
  by apply copy_name_same_file in Heq as [[=] _].
Qed.

End timestamps_apart.

(** X9.  Timestamps keep apart the first copies of runs at different
    minutes: for valid times, two first copies have the same name only when
    they are copies of the same artifact made in the same minute, and a
    timestamped first copy never has the name of a stable copy. *)
Theorem timestamped_names_tell_runs_apart d1 d2 a1 a2 output_dir :
  valid_datetime d1 → valid_datetime d2 →
  (strftime_Ymd_HM d1 = strftime_Ymd_HM d2 → d1 = d2)
  ∧ (Path.key (Path.join output_dir
                 (primary_name (Some (strftime_Ymd_HM d1)) a1))
     = Path.key (Path.join output_dir
                   (primary_name (Some (strftime_Ymd_HM d2)) a2)) →
     a1 = a2 ∧ d1 = d2)
  ∧ Path.key (Path.join output_dir
                (primary_name (Some (strftime_Ymd_HM d1)) a1))
    ≠ Path.key (Path.join output_dir (latest_name a2)).
Proof.
  intros Hd1 Hd2.
  assert (∀ d a, Path.file_name (primary_name (Some (strftime_Ymd_HM d)) a)
                 = true) as Hname.
  { intros d a. apply file_name_primary. right. by eexists. }
  split_and!.
  - by apply strftime_Ymd_HM_inj.
  - intros Hkey%key_join_inj; [|apply Hname..].
    by apply primary_name_inj.
  - intros Hkey%key_join_inj; [|apply Hname|apply file_name_latest].
    by apply primary_name_not_latest in Hkey.
Qed.

(** The theorem at two runs one minute apart. *)
Lemma timestamped_names_tell_runs_apart_witness :
  Path.key (Path.join "out"
              (primary_name (Some (strftime_Ymd_HM (mkDatetime 2024 3 7 9 5)))
                 CleanedPickle))
  ≠ Path.key (Path.join "out"
                (primary_name
                   (Some (strftime_Ymd_HM (mkDatetime 2024 3 7 9 6)))
                   CleanedPickle)).
Proof.
  assert (valid_datetime (mkDatetime 2024 3 7 9 5)) as H1.
  { unfold valid_datetime. simpl. lia. }
  assert (valid_datetime (mkDatetime 2024 3 7 9 6)) as H2.
  { unfold valid_datetime. simpl. lia. }
  destruct (timestamped_names_tell_runs_apart
              (mkDatetime 2024 3 7 9 5) (mkDatetime 2024 3 7 9 6)
              CleanedPickle CleanedPickle "out" H1 H2) as (_ & Hkey & _).
  intros Heq. destruct (Hkey Heq) as [_ Hd]. discriminate Hd.
Defined.



(** ** Every write is announced *)

Section announced_facts.

Lemma announced_no_write evs :
  (∀ p c, EvWrite p c ∉ evs) → announced evs.
Proof.
  intros Hno pre p c post ->. exfalso. apply (Hno p c).
  apply elem_of_app. right. apply elem_of_cons. by left.
Qed.

Lemma announced_app evs1 evs2 :
  announced evs1 → announced evs2 → announced (evs1 ++ evs2).
Proof.
  intros H1 H2 pre p c post Heq.
  apply app_eq_inv in Heq as [(k & -> & Hk)|(k & -> & ->)].
  - destruct k as [|e k]; simpl in Hk.
    + destruct (H2 [] p c post) as (pre' & label & Hpre); [done|].
      by destruct pre'.
    + injection Hk as <- ->. by apply (H1 pre p c k).
  - destruct (H2 k p c post) as (pre' & label & ->); [done|].
    exists (evs1 ++ pre'), label. by rewrite app_assoc.
Qed.

Lemma announced_write_step label path c : announced (write_step label path c).
Proof.
  intros pre p c' post Heq. unfold write_step in Heq.
  destruct pre as [|e1 [|e2 [|e3 pre]]]; simplify_eq/=.
  by exists [], label.
Qed.

Lemma announced_parquet_step label failure path df err :
  announced (parquet_step label failure path df err).
Proof.
  destruct err as [e|]; [|apply announced_write_step].
  apply announced_no_write. intros p c Hin. simpl in Hin.
  repeat (apply elem_of_cons in Hin as [Heq|Hin]; [discriminate Heq|]).
  by apply elem_of_nil in Hin.
Qed.

Lemma announced_run_events
    env bikefolder output_dir num_files datapaths
    write_parquet timestamp_output df m :
  announced (run_events env bikefolder output_dir num_files datapaths
               write_parquet timestamp_output df m).
Proof.
  unfold run_events, primary_events, latest_events, primary_step, latest_step.
  repeat apply announced_app;
    try apply announced_write_step;
    try (case_match; [apply announced_parquet_step|by apply announced_no_write;
                        intros ?? ?%elem_of_nil]).
  apply announced_no_write. intros p c Hin.
  repeat (apply elem_of_cons in Hin as [Heq|Hin]; [discriminate Heq|]).
  by apply elem_of_nil in Hin.
Qed.

End announced_facts.

(** X11.  In a run of [create_clean_data] nothing is written unannounced:
    every file write comes right after a printed line that ends with the
    path of the file, and the first event of the run is no write. *)
Theorem every_write_is_announced
    env w bikefolder output_dir num_files datapaths
    write_parquet timestamp_output df m :
  env_load_clean_data env bikefolder num_files datapaths = Ok (df, m) →
  output_dir ≠ "" →
  ∃ w' paths,
    create_clean_data bikefolder output_dir num_files datapaths
      write_parquet timestamp_output env w = (Ok paths, w')
    ∧ ∀ pre p c post,
        new_events w w' = pre ++ EvWrite p c :: post →
        ∃ pre' label, pre = pre' ++ [EvPrint (label +:+ p)].
Proof.
  intros Hload Hout. do 2 eexists. split.
  - by apply create_clean_data_run.
  - rewrite new_events_replay. apply announced_run_events.
Qed.

(** The theorem at a sample run: what comes before the first write. *)
Lemma every_write_is_announced_witness :
  ∃ w' paths,
    create_clean_data "csvs" "out" None None false false
      (Sample.env Sample.engine_ok) Sample.w0 = (Ok paths, w')
    ∧ ∀ pre p c post,
        new_events Sample.w0 w' = pre ++ EvWrite p c :: post →
        ∃ pre' label, pre = pre' ++ [EvPrint (label +:+ p)].
Proof.
  apply (every_write_is_announced
           (Sample.env Sample.engine_ok) Sample.w0 "csvs" "out" None None
           false false Sample.df Sample.stations); [reflexivity|done].
Defined.

(** ** The command line, option by option *)

(** X12.  The namespace of a command line of recognised options: each
    valued option holds the value given last, or [None] when it is never
    given; parquet and timestamps are on unless [--no-parquet], respectively
    [--no-timestamp], occurs; the stations-only mode is on exactly when
    [--only-stations-pickle] occurs. *)
Theorem parse_args_namespace argv :
  args_csv_dir (parse_args argv) = last (csv_dir_values argv)
  ∧ args_output_dir (parse_args argv) = last (output_dir_values argv)
  ∧ args_num_files (parse_args argv) = last (num_files_values argv)
  ∧ args_write_parquet (parse_args argv)
    = negb (bool_decide (OptNoParquet ∈ argv))
  ∧ args_timestamp_output (parse_args argv)
    = negb (bool_decide (OptNoTimestamp ∈ argv))
  ∧ args_only_stations_pickle (parse_args argv)
    = bool_decide (OptOnlyStationsPickle ∈ argv).
Proof.
  induction argv as [|o argv IH] using rev_ind.
  { split_and!; reflexivity. }
  destruct IH as (Hcsv & Hout & Hnum & Hpq & Hts & Hso).
  rewrite parse_args_snoc.
  unfold csv_dir_values, output_dir_values, num_files_values in *.
  rewrite !omap_app.
  assert (∀ o', bool_decide (o' ∈ argv ++ [o])
                = bool_decide (o' ∈ argv) || bool_decide (o' = o)) as Hin.
  { intros o'. apply eq_true_iff_eq.
    rewrite orb_true_iff, !bool_decide_eq_true, elem_of_app,
      list_elem_of_singleton. done. }
  rewrite !Hin.
  destruct o; simpl; rewrite ?app_nil_r, ?last_snoc, ?orb_false_r;
    split_and!; try done; by rewrite orb_true_r.
Qed.

(** ** The JSON form loses nothing *)

Section json_form_facts.

Lemma sorted_list_inj v1 v2 : sorted_list v1 = sorted_list v2 → v1 = v2.
Proof.
  intros Heq. apply set_eq. intros x.
  by rewrite <- !elem_of_sorted_list, Heq.
Qed.

Lemma serializable_entry_inj (kv1 kv2 : station_id * gset string) :
  (py_int kv1.1, sorted_list kv1.2) = (py_int kv2.1, sorted_list kv2.2) →
  kv1 = kv2.
Proof.
  destruct kv1 as [k1 v1], kv2 as [k2 v2]. simpl.
  intros [= Hk%py_int_inj Hv%sorted_list_inj]. congruence.
Qed.

Lemma json_member_inj (kv1 kv2 : Z * list string) :
  (pretty kv1.1, JArray (map JString kv1.2))
  = (pretty kv2.1, JArray (map JString kv2.2)) →
  kv1 = kv2.
Proof.
  destruct kv1 as [k1 l1], kv2 as [k2 l2]. simpl.
  intros [= Hk%(inj pretty) Hl]. f_equal; [done|].
  revert l2 Hl. induction l1 as [|x l1 IH]; intros [|y l2] Hl;
    simplify_eq/=; [done|]. f_equal. by apply IH.
Qed.

Lemma map_inj {A B} (f : A → B) (l1 l2 : list A) :
  (∀ x y, f x = f y → x = y) → map f l1 = map f l2 → l1 = l2.
Proof.
  intros Hf. revert l2. induction l1 as [|x l1 IH]; intros [|y l2] Heq;
    simplify_eq/=; [done|]. f_equal; [by apply Hf|by apply IH].
Qed.

End json_form_facts.

(** X13.  The JSON document written for a station mapping determines the
    mapping: two dictionaries with the same JSON-serialisable form, or with
    the same JSON document, are the same dictionary, sets included.  The
    member names of the document are distinct. *)
Theorem json_form_determines_the_mapping (m1 m2 : StationMap) :
  NoDup (dict_keys m1) → NoDup (dict_keys m2) →
  (serializable_station_map m1 = serializable_station_map m2 → m1 = m2)
  ∧ (json_of_station_map (serializable_station_map m1)
     = json_of_station_map (serializable_station_map m2) → m1 = m2)
  ∧ ∃ members,
      json_of_station_map (serializable_station_map m1) = JObject members
      ∧ NoDup (map fst members).
Proof.
  intros Hnd1 Hnd2.
  rewrite !serializable_station_map_entries by done.
  split_and!.
  - apply map_inj. intros kv1 kv2. apply serializable_entry_inj.
  - unfold json_of_station_map. intros [= Heq].
    apply map_inj in Heq; [|intros kv1 kv2; apply json_member_inj].
    revert Heq. apply map_inj. intros kv1 kv2. apply serializable_entry_inj.
  - eexists. split; [reflexivity|].
    rewrite !map_map. simpl.
    rewrite <- (map_map fst (λ k, pretty (py_int k))).
    assert (Inj (=) (=) (λ k : station_id, pretty (py_int k))) as Hinj.
    { intros k1 k2 Hk. by apply py_int_inj, (inj pretty). }
    by apply (NoDup_fmap_2 _).
Qed.

(** The theorem at two mappings that differ in one name. *)
Lemma json_form_determines_the_mapping_witness :
  json_of_station_map
    (serializable_station_map [(StationId 3, {["Kings X"]})])
  ≠ json_of_station_map
      (serializable_station_map [(StationId 3, {["King's Cross"]})]).
Proof.
  destruct (json_form_determines_the_mapping
              [(StationId 3, {["Kings X"]})]
              [(StationId 3, {["King's Cross"]})]) as (_ & Hjson & _);
    [apply NoDup_singleton|apply NoDup_singleton|].
  intros Heq. apply Hjson in Heq.
  pose proof (f_equal (λ m : StationMap,
                match m with [(_, v)] => v | _ => ∅ end) Heq) as Hs.
  cbv beta iota in Hs.
  assert (("Kings X" : string) ∈ ({["King's Cross"]} : gset string)) as Hin.
  { rewrite <- Hs. by apply elem_of_singleton. }
  apply elem_of_singleton in Hin. discriminate Hin.
Defined.

(** ** The two modes of [main] side by side *)

Section option_order.

(** [--no-parquet] may come anywhere: it only ever sets its own [dest]. *)
Lemma fold_options_no_parquet argv a :
  fold_left apply_option argv (apply_option a OptNoParquet)
  = apply_option (fold_left apply_option argv a) OptNoParquet.
Proof.
  revert a. induction argv as [|o argv IH]; intros a; [done|].
  change (fold_left apply_option argv
            (apply_option (apply_option a OptNoParquet) o)
          = apply_option (fold_left apply_option argv (apply_option a o))
              OptNoParquet).
  rewrite <- IH. f_equal. by destruct o.
Qed.

Lemma parse_args_no_parquet argv1 argv2 :
  parse_args (argv1 ++ OptNoParquet :: argv2)
  = apply_option (parse_args (argv1 ++ argv2)) OptNoParquet.
Proof.
  unfold parse_args. rewrite !fold_left_app.
  apply (fold_options_no_parquet argv2).
Qed.

(** The stations-only branch reads every [dest] but [write_parquet]. *)
Lemma main_with_stations_only_ext args args' :
  args_only_stations_pickle args = true →
  args_only_stations_pickle args' = true →
  args_csv_dir args = args_csv_dir args' →
  args_output_dir args = args_output_dir args' →
  args_num_files args = args_num_files args' →
  args_timestamp_output args = args_timestamp_output args' →
  main_with args = main_with args'.
Proof.
  destruct args, args'. simpl. by intros -> -> -> -> -> ->.
Qed.

End option_order.

(** X14.  With [--only-stations-pickle] on the command line,
    [--no-parquet] changes nothing, wherever it stands: [main] returns the
    same and leaves the same world, whatever the configuration, the loader
    and the file system do. *)
Theorem stations_only_ignores_no_parquet argv1 argv2 env w :
  OptOnlyStationsPickle ∈ argv1 ++ argv2 →
  main (argv1 ++ OptNoParquet :: argv2) env w = main (argv1 ++ argv2) env w.
Proof.
  intros Hflag%only_stations_pickle_given. unfold main.
  rewrite parse_args_no_parquet.
  by rewrite (main_with_stations_only_ext
                (apply_option (parse_args (argv1 ++ argv2)) OptNoParquet)
                (parse_args (argv1 ++ argv2))).
Qed.

(** The theorem at a sample command line. *)
Lemma stations_only_ignores_no_parquet_witness :
  main [OptOutputDir "."; OptNoParquet; OptOnlyStationsPickle]
    (Sample.env Sample.no_engine) Sample.w0
  = main [OptOutputDir "."; OptOnlyStationsPickle]
      (Sample.env Sample.no_engine) Sample.w0.
Proof.
  apply (stations_only_ignores_no_parquet
           [OptOutputDir "."] [OptOnlyStationsPickle]).
  apply (bool_decide_unpack _). by vm_compute.
Defined.

(** X15.  The stations-only branch repeats what [create_clean_data] does
    for the set-valued mapping.  On one command line and in one world, with
    a readable configuration, a loader that returns and an output directory
    that exists, adding [--only-stations-pickle] leaves exactly the two
    writes of that artifact, in the order of the full pipeline, and after
    either run the two files hold the same. *)
Theorem stations_only_agrees_with_the_pipeline env w argv cfg df m :
  OptOnlyStationsPickle ∉ argv →
  env_config env = Ok cfg →
  env_project_root env ≠ "" →
  let args := parse_args argv in
  let csv_dir := resolved_csv_dir env cfg args in
  let output_dir := resolved_output_dir env cfg args in
  let tso := args_timestamp_output args in
  env_load_clean_data env csv_dir (args_num_files args) None = Ok (df, m) →
  dir_exists w (Path.key output_dir) = true →
  ∃ w1 w2,
    main (argv ++ [OptOnlyStationsPickle]) env w = (Ok tt, w1)
    ∧ main argv env w = (Ok tt, w2)
    ∧ writes (new_events w w1)
      = [primary_write env output_dir tso df m StationNamesPickle;
         latest_write output_dir df m StationNamesPickle]
    ∧ writes (new_events w w1) `sublist_of` writes (new_events w w2)
    ∧ (∀ p c, (p, c) ∈ writes (new_events w w1) →
         files w1 !! Path.key p = Some c ∧ files w2 !! Path.key p = Some c).
Proof.
  intros Hflag Hcfg Hroot args csv_dir output_dir tso Hload Hdir.
  assert (args_only_stations_pickle args = false) as Hflag'.
  { destruct (args_only_stations_pickle args) eqn:Hf; [|done].
    by apply only_stations_pickle_given in Hf. }
  assert (output_dir ≠ "") as Hout by (by apply resolved_output_dir_named).
  set (greeting := [EvPrint ("Using CSV dir: " +:+ csv_dir);
                    EvPrint ("Using output dir: " +:+ output_dir)]).
  set (events2 := run_events env csv_dir output_dir (args_num_files args) None
                    (args_write_parquet args) tso df m).
  set (names_fpath := primary_path env output_dir tso StationNamesPickle).
  set (latest_fpath := latest_path output_dir StationNamesPickle).
  set (events1 :=
         stations_only_prelude env cfg args
         ++ [EvWrite names_fpath (Pickle (PySetMap m));
             EvPrint (latest_label StationNamesPickle +:+ latest_fpath);
             EvWrite latest_fpath (Pickle (PySetMap m))]).
  assert (writes events1
          = [primary_write env output_dir tso df m StationNamesPickle;
             latest_write output_dir df m StationNamesPickle]) as Hw1.
  { reflexivity. }
  assert (writes (greeting ++ events2)
          = map (primary_write env output_dir tso df m)
              (written_primary (args_write_parquet args)
                 (primary_parquet_error env output_dir tso df))
            ++ map (latest_write output_dir df m)
                 (written_latest (args_write_parquet args)
                    (primary_parquet_error env output_dir tso df)
                    (latest_parquet_error env output_dir df))) as Hw2.
  { rewrite writes_app. apply writes_run_events. }
  exists (replay events1 w), (replay events2 (replay greeting w)).
  rewrite <- replay_app, !new_events_replay, Hw1, Hw2. split_and!.
  - unfold main. rewrite parse_args_snoc.
    by apply (main_with_stations_only_run env w
                (apply_option args OptOnlyStationsPickle) cfg df m).
  - rewrite replay_app.
    rewrite (main_full_pipeline_run env w argv cfg Hcfg Hflag').
    unfold mbind, M_bind, bind.
    by rewrite (create_clean_data_run env _ csv_dir output_dir
                  (args_num_files args) None (args_write_parquet args) tso
                  df m Hload Hout).
  - reflexivity.
  - apply (sublist_app [_] _ [_]).
    + unfold written_primary. rewrite !map_app.
      do 2 apply sublist_inserts_l. simpl. by do 2 apply sublist_cons.
    + unfold written_latest. rewrite !map_app.
      do 2 apply sublist_inserts_l. simpl. by do 2 apply sublist_cons.
  - intros p c Hin. rewrite !files_replay, Hw1, Hw2. split.
    + apply files_after_written; [|done].
      intros p1 c1 p2 c2 H1 H2 _.
      apply elem_of_cons in H1 as [[= _ ->]|H1];
        [|apply list_elem_of_singleton in H1 as [= _ ->]];
        (apply elem_of_cons in H2 as [[= _ ->]|H2];
         [|apply list_elem_of_singleton in H2 as [= _ ->]]); done.
    + apply files_after_written; [apply run_writes_consistent|].
      apply elem_of_app.
      apply elem_of_cons in Hin as [->|Hin];
        [left|right; apply list_elem_of_singleton in Hin as ->];
        apply list_elem_of_fmap; exists StationNamesPickle;
        (split; [done|]).
      * by apply not_parquet_written_primary.
      * by apply not_parquet_written_latest.
Qed.

(** The theorem at a sample command line. *)
Lemma stations_only_agrees_with_the_pipeline_witness :
  ∃ w1 w2,
    main [OptNoTimestamp; OptOnlyStationsPickle]
      (Sample.env Sample.engine_ok)
      (make_dirs "/repo/data" Sample.w0) = (Ok tt, w1)
    ∧ main [OptNoTimestamp] (Sample.env Sample.engine_ok)
        (make_dirs "/repo/data" Sample.w0) = (Ok tt, w2)
    ∧ files w1 !! Path.key "/repo/data/station_names.pickle"
      = Some (Pickle (PySetMap Sample.stations))
    ∧ files w2 !! Path.key "/repo/data/station_names.pickle"
      = Some (Pickle (PySetMap Sample.stations)).
Proof.
  destruct (stations_only_agrees_with_the_pipeline
              (Sample.env Sample.engine_ok)
              (make_dirs "/repo/data" Sample.w0)
              [OptNoTimestamp]
              (mkConfig "data" "csvs") Sample.df Sample.stations)
    as (w1 & w2 & Hrun1 & Hrun2 & Hwrites & _ & Hfiles);
    [apply (bool_decide_unpack _); by vm_compute
    |reflexivity|done|reflexivity|by vm_compute|].
  exists w1, w2. split_and!; [exact Hrun1|exact Hrun2|..];
    apply (Hfiles "/repo/data/station_names.pickle"
             (Pickle (PySetMap Sample.stations)));
    rewrite Hwrites; apply elem_of_cons; by left.
Defined.
